(** * rs-benchmark: a shallow embedding of [rs-benchmark.py]

    The program is a command-line benchmark that loads synthetic rows into a
    temporary warehouse table with three strategies (bulk, copy, classic).
    Everything it does is an effect on its surroundings, so the embedding is
    a state-and-exception monad over a [world]: the warehouse, the files
    written, the statements handed to the cursor, the console, and the read
    positions of the two oracles the program consults (the pseudo-random
    generator and the clock). *)

From Stdlib Require Import ZArith NArith QArith Qround List String Ascii Bool Lia Lqa.
From Stdlib Require Import Floats.
Import ListNotations.

Set Implicit Arguments.
Set Warnings "-register-all".

Open Scope string_scope.
Open Scope list_scope.
Open Scope Z_scope.

(** ** Python values *)

(** The values that travel through [_execute] as [data].  A float produced by
    [random()] is the dyadic rational [num / 2^53]; a [datetime] is the clock
    reading it was taken at. *)
Inductive pyval : Type :=
| VNone
| VInt (z : Z)
| VFloat (num : N)
| VDatetime (t : Q)
| VStr (s : string)
| VTuple (items : list pyval).

(** Python truthiness, as used by [if data:]. *)
Definition truthy (v : pyval) : bool :=
  match v with
  | VNone => false
  | VInt z => negb (z =? 0)
  | VFloat n => negb (n =? 0)%N
  | VDatetime _ => true
  | VStr s => negb (String.eqb s "")
  | VTuple [] => false
  | VTuple (_ :: _) => true
  end.

(** Truthiness of an optional command-line string ([None] and [""] are
    both false). *)
Definition truthy_opt (o : option string) : bool :=
  match o with
  | None => false
  | Some s => negb (String.eqb s "")
  end.

(** Exceptions deriving from [Exception].  [SystemExit] is not one of them and
    is a separate outcome below. *)
Inductive exn : Type :=
| AttributeError (msg : string)
| TypeError (msg : string)
| IndexError (msg : string)
| ValueError (msg : string)
| OperationalError (msg : string)
| ProgrammingError (msg : string).

(** ** SQL as the cursor receives it *)

Inductive coltype : Type :=
| TBigintIdentity (seed step : Z)
| TInteger
| TSmallint
| TDecimal (precision scale : nat)
| TTimestamp
| TVarchar (n : nat).

Record column : Type := Column { col_name : string; col_type : coltype }.

(** The statement texts the program builds.  [SqlInsertValues t cols tuples]
    is [INSERT INTO t (cols) VALUES] followed by the comma-joined literal
    tuples (none at all for the bare prefix); [SqlInsertPlaceholders] ends in
    one tuple of [%s] placeholders. *)
Inductive sql_text : Type :=
| SqlDrop (table : string)
| SqlCreateTemp (table : string) (cols : list column)
| SqlInsertValues (table : string) (cols : list string) (tuples : list (list pyval))
| SqlInsertPlaceholders (table : string) (cols : list string) (placeholders : nat)
| SqlCopy (table from iam_role timeformat delimiter : string) (ignoreheader : nat)
| SqlGarbled.

(** One call of [cur.execute]: the text and the bound arguments, if any. *)
Record issued : Type := Issued { i_sql : sql_text; i_args : option pyval }.

(** ** The warehouse and the file store (environment) *)

Record table : Type := Table { t_schema : list column; t_rows : list (list pyval) }.

(** The session's relations by name; at most one entry per name. *)
Definition database : Type := list (string * table).

Fixpoint db_get (d : database) (name : string) : option table :=
  match d with
  | [] => None
  | (k, t) :: rest => if String.eqb k name then Some t else db_get rest name
  end.

Fixpoint db_remove (d : database) (name : string) : database :=
  match d with
  | [] => []
  | (k, t) :: rest =>
      if String.eqb k name then db_remove rest name else (k, t) :: db_remove rest name
  end.

Definition db_set (d : database) (name : string) (t : option table) : database :=
  match t with
  | Some t' => (name, t') :: db_remove d name
  | None => db_remove d name
  end.

(** A delimited text file: its separator and its lines, each line the list of
    its fields. *)
Record csv_file : Type := Csv { csv_sep : string; csv_lines : list (list pyval) }.

Definition filestore : Type := list (string * csv_file).

Fixpoint fs_lookup (fs : filestore) (path : string) : option csv_file :=
  match fs with
  | [] => None
  | (p, f) :: rest => if String.eqb p path then Some f else fs_lookup rest path
  end.

Definition append_rows (t : table) (rows : list (list pyval)) : table :=
  Table (t_schema t) (t_rows t ++ rows).

(** What the server does with a statement.  A rejected statement leaves the
    database as it was (every statement runs in autocommit).  A table keeps
    the rows in the order and form received: the server is asked for one
    value per listed column and nothing more, so the column types are
    declared but not enforced.  The rows the program generates are within
    the declared types; the properties below that speak of stored rows are
    stated for such rows ([generated_row]). *)
Definition db_exec (fs : filestore) (q : issued) (d : database) : exn + database :=
  match i_sql q, i_args q with
  | SqlDrop t, None =>
      match db_get d t with
      | Some _ => inr (db_set d t None)
      | None => inl (ProgrammingError "table does not exist")
      end
  | SqlCreateTemp t cols, None =>
      match db_get d t with
      | Some _ => inl (ProgrammingError "relation already exists")
      | None => inr (db_set d t (Some (Table cols [])))
      end
  | SqlInsertValues t cols tuples, None =>
      match tuples, db_get d t with
      | [], _ => inl (ProgrammingError "syntax error at end of input")
      | _ :: _, None => inl (ProgrammingError "relation does not exist")
      | _ :: _, Some tb =>
          if forallb (fun r => Nat.eqb (List.length r) (List.length cols)) tuples
          then inr (db_set d t (Some (append_rows tb tuples)))
          else inl (ProgrammingError "INSERT has more expressions than target columns")
      end
  | SqlInsertPlaceholders t cols k, Some (VTuple args) =>
      match db_get d t with
      | None => inl (ProgrammingError "relation does not exist")
      | Some tb =>
          if Nat.eqb (List.length args) k && Nat.eqb k (List.length cols)
          then inr (db_set d t (Some (append_rows tb [args])))
          else inl (ProgrammingError "wrong number of arguments")
      end
  | SqlCopy t from _ _ delim skip, None =>
      match db_get d t, fs_lookup fs from with
      | Some tb, Some f =>
          if String.eqb (csv_sep f) delim
          then inr (db_set d t (Some (append_rows tb (skipn skip (csv_lines f)))))
          else inl (ProgrammingError "delimiter not found")
      | None, _ => inl (ProgrammingError "relation does not exist")
      | _, None => inl (ProgrammingError "the specified key does not exist")
      end
  | _, _ => inl (ProgrammingError "syntax error")
  end.

(** ** Console *)

Inductive level : Type := DEBUG | INFO | ERROR.

Inductive message : Type :=
| MConnectTo (user host name : string)
| MUnableToConnect (e : exn)
| MDropIgnored (e : exn)
| MCreateTableExecuted (seconds : float)
| MInsertBulk (n : Z)
| MInsertCopy (n : Z)
| MInsertClassic.

Inductive style : Type := Bold | BgRed.

Inductive notice : Type :=
| NBulk (n : Z) (wall sql : float)
| NCopy (n : Z) (wall sql : float)
| NClassic (n : Z) (wall sql : float)
| NClassicMax (max_records : Z)
| NCopyParamsRequired.

Inductive event : Type :=
| Log (l : level) (m : message)
| Secho (n : notice) (s : style).

(** ** Oracles read by the program *)

Record conninfo : Type := ConnInfo {
  ci_dbname : string; ci_host : string; ci_port : Z;
  ci_user : string; ci_password : string; ci_sslmode : string }.

Record environ : Type := Environ {
  env_random : Z -> nat -> N;        (* seed, position: the raw draw *)
  env_clock : nat -> Q;              (* successive clock readings, seconds *)
  env_strftime : Q -> string;        (* '%Y%m%d-%H:%M:%S' of a reading *)
  env_db_password : option string;   (* os.environ.get("DB_PASSWORD") *)
  env_getpass : string;              (* what the operator types *)
  env_connect : conninfo -> option exn  (* [Some e]: psycopg2.connect raises e *)
}.

Inductive connection : Type := Conn.

(** ** The world *)

Record world : Type := World {
  w_db : database;
  w_fs : filestore;
  w_issued : list issued;
  w_console : list event;
  w_seed : Z;
  w_rng : nat;
  w_clock : nat;
  w_autocommit : bool;
  w_password : option string;
  w_debug : bool
}.

Definition with_db (d : database) (w : world) : world :=
  World d (w_fs w) (w_issued w) (w_console w) (w_seed w) (w_rng w) (w_clock w)
        (w_autocommit w) (w_password w) (w_debug w).

Definition with_file (p : string) (f : csv_file) (w : world) : world :=
  World (w_db w) ((p, f) :: w_fs w) (w_issued w) (w_console w) (w_seed w) (w_rng w)
        (w_clock w) (w_autocommit w) (w_password w) (w_debug w).

Definition issue (q : issued) (w : world) : world :=
  World (w_db w) (w_fs w) (w_issued w ++ [q]) (w_console w) (w_seed w) (w_rng w)
        (w_clock w) (w_autocommit w) (w_password w) (w_debug w).

Definition emit (e : event) (w : world) : world :=
  World (w_db w) (w_fs w) (w_issued w) (w_console w ++ [e]) (w_seed w) (w_rng w)
        (w_clock w) (w_autocommit w) (w_password w) (w_debug w).

Definition reseed (s : Z) (w : world) : world :=
  World (w_db w) (w_fs w) (w_issued w) (w_console w) s 0%nat (w_clock w)
        (w_autocommit w) (w_password w) (w_debug w).

(** One more raw draw consumed; one more clock reading consumed. *)
Definition draw (w : world) : world :=
  World (w_db w) (w_fs w) (w_issued w) (w_console w) (w_seed w) (S (w_rng w))
        (w_clock w) (w_autocommit w) (w_password w) (w_debug w).

Definition tick (w : world) : world :=
  World (w_db w) (w_fs w) (w_issued w) (w_console w) (w_seed w) (w_rng w)
        (S (w_clock w)) (w_autocommit w) (w_password w) (w_debug w).

(** [advance r c w]: [r] more draws and [c] more clock readings consumed. *)
Definition advance (r c : nat) (w : world) : world :=
  World (w_db w) (w_fs w) (w_issued w) (w_console w) (w_seed w) (w_rng w + r)%nat
        (w_clock w + c)%nat (w_autocommit w) (w_password w) (w_debug w).

Definition with_autocommit (b : bool) (w : world) : world :=
  World (w_db w) (w_fs w) (w_issued w) (w_console w) (w_seed w) (w_rng w) (w_clock w)
        b (w_password w) (w_debug w).

Definition with_password (p : option string) (w : world) : world :=
  World (w_db w) (w_fs w) (w_issued w) (w_console w) (w_seed w) (w_rng w) (w_clock w)
        (w_autocommit w) p (w_debug w).

Definition with_debug (b : bool) (w : world) : world :=
  World (w_db w) (w_fs w) (w_issued w) (w_console w) (w_seed w) (w_rng w) (w_clock w)
        (w_autocommit w) (w_password w) b.

(** ** The monad *)

Inductive outcome (A : Type) : Type :=
| Ok (a : A)
| Raise (e : exn)
| Exit (code : Z).

Arguments Raise {A} e.
Arguments Exit {A} code.

Definition M (A : Type) : Type := world -> outcome A * world.

Definition ret {A} (a : A) : M A := fun w => (Ok a, w).

Definition bind {A B} (m : M A) (k : A -> M B) : M B :=
  fun w =>
    match m w with
    | (Ok a, w') => k a w'
    | (Raise e, w') => (Raise e, w')
    | (Exit c, w') => (Exit c, w')
    end.

Definition raise {A} (e : exn) : M A := fun w => (Raise e, w).

(** [sys.exit(code)]. *)
Definition sys_exit {A} (code : Z) : M A := fun w => (Exit code, w).

(** [try: m  except Exception as e: h e].  [SystemExit] passes through. *)
Definition try_except {A} (m : M A) (h : exn -> M A) : M A :=
  fun w =>
    match m w with
    | (Raise e, w') => h e w'
    | r => r
    end.

Definition modify (f : world -> world) : M unit := fun w => (Ok tt, f w).

Declare Scope py_scope.
Delimit Scope py_scope with py.
Notation "x <- m ;; k" := (bind m (fun x => k))
  (at level 61, m at next level, right associativity) : py_scope.
Notation "m ;; k" := (bind m (fun _ => k))
  (at level 61, right associativity) : py_scope.
Open Scope py_scope.

(** A [for] loop threading an accumulator through its body. *)
Fixpoint for_fold {I A} (l : list I) (acc : A) (body : I -> A -> M A) : M A :=
  match l with
  | [] => ret acc
  | i :: rest => acc' <- body i acc ;; for_fold rest acc' body
  end.

(** [range(start, stop)]. *)
Definition py_range (start stop : Z) : list Z :=
  map (fun i => start + Z.of_nat i) (seq 0 (Z.to_nat (stop - start))).

(** [range(start, stop, step)] on naturals, [step > 0]: start, start+step, ...
    while below [stop]. *)
Fixpoint range_step_aux (fuel x stop step : nat) : list nat :=
  match fuel with
  | O => []
  | S fuel' =>
      if (x <? stop)%nat then x :: range_step_aux fuel' (x + step) stop step else []
  end.

Definition range_step (start stop step : nat) : list nat :=
  range_step_aux stop start stop step.

(** [l[a:b]] for [0 <= a <= b]. *)
Definition slice {A} (l : list A) (a b : nat) : list A :=
  firstn (b - a) (skipn a l).

(** *** Python floats

    [time()] returns a binary64 float and the program computes with floats:
    differences, sums, the division by 1000 and [round] are the IEEE
    operations of the primitive floats.  The exact value of a finite float is
    a rational, and [Q2F] is the float nearest to a rational (ties to even). *)

(** The nearest integer, ties to even. *)
Definition round_half_even (x : Q) : Z :=
  let f := Qfloor x in
  match Qcompare (x - inject_Z f) (1 # 2) with
  | Lt => f
  | Gt => f + 1
  | Eq => if Z.even f then f else f + 1
  end.

Definition is_finite (x : float) : bool :=
  match Prim2SF x with
  | S754_zero _ | S754_finite _ _ _ => true
  | _ => false
  end.

Definition sign_bit (x : float) : bool :=
  match Prim2SF x with
  | S754_zero s | S754_infinity s | S754_finite s _ _ => s
  | S754_nan => false
  end.

(** [2^e] for any integer [e]. *)
Definition pow2Q (e : Z) : Q :=
  if 0 <=? e then inject_Z (2 ^ e) else Qmake 1 (Z.to_pos (2 ^ (- e))).

(** The exact value of a finite float (0 for the others). *)
Definition F2Q (x : float) : Q :=
  match Prim2SF x with
  | S754_finite s m e =>
      let v := (inject_Z (Zpos m) * pow2Q e)%Q in
      if s then Qopp v else v
  | _ => 0%Q
  end.

(** [floor(log2 q)] for [q > 0]. *)
Definition Qlog2_floor (q : Q) : Z :=
  let e := Z.log2 (Qnum q) - Z.log2 (Zpos (Qden q)) in
  if Qle_bool (pow2Q e) q then e else e - 1.

(** The float nearest to [q > 0]: a significand of at most 53 bits at the
    exponent of [q], not below the subnormal exponent; [ldexp] overflows to
    infinity. *)
Definition Q2F_pos (q : Q) : float :=
  let e := Z.max (Qlog2_floor q - 52) (-1074) in
  let m := round_half_even (q * pow2Q (- e)) in
  Z.ldexp (of_uint63 (Uint63.of_Z m)) e.

Definition Q2F (q : Q) : float :=
  match Qnum q with
  | Z0 => zero
  | Zpos _ => Q2F_pos q
  | Zneg _ => PrimFloat.opp (Q2F_pos (Qopp q))
  end.

(** The signed zero [round] gives for a value that rounds to nothing. *)
Definition zero_like (x : float) : float := if sign_bit x then neg_zero else zero.

(** [round(x, d)] on a float, [d >= 0]: the exact value of [x] is rounded to
    the nearest multiple of [10^-d], ties to even, and the float nearest to
    that decimal is returned; values that are not finite come back as they
    are, as does every value when [d] exceeds what a float can resolve. *)
Definition round_dec (x : float) (d : nat) : float :=
  if is_finite x && (d <=? 323)%nat then
    let k := round_half_even (F2Q x * inject_Z (10 ^ Z.of_nat d)) in
    if k =? 0 then zero_like x
    else Q2F (Qmake k (Z.to_pos (10 ^ Z.of_nat d)))
  else x.

(** ** The program *)

Definition table_name : string := "_rs_benchmarking".

Definition ascii_lowercase : list ascii :=
  list_ascii_of_string "abcdefghijklmnopqrstuvwxyz".

(** The table [_init_table] creates. *)
Definition staging_schema : list column :=
  [ Column "id" (TBigintIdentity 0 1);
    Column "my_integer" TInteger;
    Column "my_smallint" TSmallint;
    Column "my_decimal" (TDecimal 8 2);
    Column "my_timestamp" TTimestamp;
    Column "my_varchar" (TVarchar 100) ].

(** The column list of both INSERT texts and of the data frame. *)
Definition columns : list string :=
  ["my_integer"; "my_smallint"; "my_decimal"; "my_timestamp"; "my_varchar"].

Definition max_nbr_of_tuples : nat := Z.to_nat 50000.

Definition max_records : Z := 100.

(** [cur.mogrify("(%s,%s,%s,%s,%s)", d)]: the literal tuple of [d]. *)
Definition mogrify (placeholders : nat) (d : pyval) : exn + list pyval :=
  match d with
  | VTuple items =>
      if Nat.eqb (List.length items) placeholders then inr items
      else inl (TypeError "not all arguments converted during string formatting")
  | _ => inl (TypeError "not all arguments converted during string formatting")
  end.

Fixpoint mogrify_all (placeholders : nat) (ds : list pyval) : exn + list (list pyval) :=
  match ds with
  | [] => inr []
  | d :: rest =>
      match mogrify placeholders d with
      | inl e => inl e
      | inr t =>
          match mogrify_all placeholders rest with
          | inl e => inl e
          | inr ts => inr (t :: ts)
          end
      end
  end.

(** [sql + ','.join(tuples)]. *)
Definition sql_append_tuples (sql : sql_text) (ts : list (list pyval)) : sql_text :=
  match sql with
  | SqlInsertValues t cols old => SqlInsertValues t cols (old ++ ts)
  | _ => SqlGarbled
  end.

(** [s.rstrip('/')]. *)
Fixpoint rstrip_slash (s : string) : string :=
  match s with
  | EmptyString => EmptyString
  | String c rest =>
      let rest' := rstrip_slash rest in
      if Ascii.eqb c "/"%char && String.eqb rest' "" then EmptyString
      else String c rest'
  end.

Definition opt_str (o : option string) : string :=
  match o with Some s => s | None => "" end.

(** [pd.DataFrame(rows, columns=cols)]. *)
Record dataframe : Type := Frame { df_columns : list string; df_rows : list (list pyval) }.

Definition DataFrame (rows : list (list pyval)) (cols : list string) : exn + dataframe :=
  if forallb (fun r => Nat.eqb (List.length r) (List.length cols)) rows
  then inr (Frame cols rows)
  else inl (ValueError "columns passed, passed data had a different number of columns").

(** The command-line options of [insert]. *)
Inductive scenario_choice : Type := SAll | SClassic | SBulk | SCopy.

Record options : Type := Options {
  db_host : string;
  db_port : Z;
  db_name : string;
  db_user : string;
  copy_s3_path : option string;
  copy_iam_role : option string;
  nbr_of_records : Z;
  scenario : scenario_choice;
  debug : bool
}.

Definition scenario_in (s : scenario_choice) (l : list scenario_choice) : bool :=
  existsb (fun x =>
             match s, x with
             | SAll, SAll | SClassic, SClassic | SBulk, SBulk | SCopy, SCopy => true
             | _, _ => false
             end) l.

(** The float [time()] returns at the [i]-th clock reading. *)
Definition reading (E : environ) (i : nat) : float := Q2F (env_clock E i).

Section Program.

Variable E : environ.

(** *** Library calls *)

(** [time()]: the clock reading as a float. *)
Definition time_ : M float :=
  fun w => (Ok (reading E (w_clock w)), tick w).

(** [datetime.now()]: the clock reading itself. *)
Definition datetime_now : M Q :=
  fun w => (Ok (env_clock E (w_clock w)), tick w).

Definition randbelow (n : N) : M N :=
  fun w => (Ok (env_random E (w_seed w) (w_rng w) mod n)%N, draw w).

(** [randint(a, b)] is [randrange(a, b + 1)]: both ends included. *)
Definition randint (a b : Z) : M Z :=
  k <- randbelow (Z.to_N (b - a + 1)) ;; ret (a + Z.of_N k).

(** [random()]: 53 random bits over [2^53]. *)
Definition random : M N := randbelow (2 ^ 53)%N.

Definition seed (s : Z) : M unit := modify (reseed s).

Definition choice (l : list ascii) : M ascii :=
  match l with
  | [] => raise (IndexError "Cannot choose from an empty sequence")
  | _ :: _ =>
      i <- randbelow (N.of_nat (List.length l)) ;;
      ret (nth (N.to_nat i) l "a"%char)
  end.

Definition logger_debug (m : message) : M unit :=
  fun w => (Ok tt, if w_debug w then emit (Log DEBUG m) w else w).

Definition logger_info (m : message) : M unit := modify (emit (Log INFO m)).

Definition logger_error (m : message) : M unit := modify (emit (Log ERROR m)).

Definition secho (n : notice) (s : style) : M unit := modify (emit (Secho n s)).

(** [cur.execute(sql, args)]: the statement is handed over, then the server
    accepts or rejects it. *)
Definition cur_execute (sql : sql_text) (args : option pyval) : M unit :=
  fun w =>
    let q := Issued sql args in
    let w1 := issue q w in
    match db_exec (w_fs w1) q (w_db w1) with
    | inl e => (Raise e, w1)
    | inr d => (Ok tt, with_db d w1)
    end.

Definition to_csv (df : dataframe) (path sep : string) : M unit :=
  modify (with_file path (Csv sep (map VStr (df_columns df) :: df_rows df))).

Definition psycopg2_connect (ci : conninfo) : M (option connection) :=
  match env_connect E ci with
  | Some e => raise e
  | None => ret (Some Conn)
  end.

(** *** [_get_random_string] *)

Definition _get_random_string (length : Z) : M string :=
  cs <- for_fold (py_range 0 length) []
          (fun _ acc => c <- choice ascii_lowercase ;; ret (acc ++ [c])) ;;
  ret (string_of_list_ascii cs).

(** *** [_init_logger] *)

Definition _init_logger (dbg : bool) : M unit := modify (with_debug dbg).

(** *** [_connect_redshift] *)

Definition resolve_password : M string :=
  fun w =>
    if truthy_opt (w_password w) then (Ok (opt_str (w_password w)), w)
    else
      let p := if truthy_opt (env_db_password E) then env_db_password E
               else Some (env_getpass E) in
      (Ok (opt_str p), with_password p w).

Definition _connect_redshift (host : string) (port : Z) (name user : string)
  : M (option connection) :=
  logger_debug (MConnectTo user host name) ;;
  try_except
    (pw <- resolve_password ;;
     psycopg2_connect (ConnInfo name host port user pw "require"))
    (fun e => logger_error (MUnableToConnect e) ;; ret None).

(** *** [_execute] *)

Definition _execute (conn : option connection) (sql : sql_text) (data : pyval)
           (auto_commit : bool) : M float :=
  match conn with
  | None => raise (AttributeError "'NoneType' object has no attribute 'autocommit'")
  | Some _ =>
      modify (with_autocommit auto_commit) ;;
      tic <- time_ ;;
      (if truthy data then
         match data with
         | VTuple ((VTuple _ :: _) as items) =>
             for_fold (range_step 0 (List.length items) max_nbr_of_tuples) tt
               (fun x _ =>
                  match mogrify_all 5 (slice items x (x + max_nbr_of_tuples)) with
                  | inl e => raise e
                  | inr ts => cur_execute (sql_append_tuples sql ts) None
                  end)
         | VTuple _ | VStr _ => cur_execute sql (Some data)
         | _ => raise (TypeError "object is not subscriptable")
         end
       else cur_execute sql None) ;;
      toc <- time_ ;;
      ret (toc - tic)%float
  end.

(** *** [_init_table] *)

Definition _init_table (conn : option connection) : M unit :=
  t <- try_except
         (d <- _execute conn (SqlDrop table_name) VNone true ;; ret (0 + d)%float)
         (fun e => logger_debug (MDropIgnored e) ;; ret 0%float) ;;
  d <- _execute conn (SqlCreateTemp table_name staging_schema) VNone true ;;
  logger_info (MCreateTableExecuted (round_dec ((t + d) / 1000) 4)).

(** *** [insert] *)

(** The five fields every scenario draws for a row, in source order.  The
    source writes the bounds as the floats [1e9] and [1e3]; they are integral,
    and [randrange] takes them for [10^9] and [10^3]. *)
Definition synthetic_fields : M (list pyval) :=
  a <- randint 0 (10 ^ 9) ;;
  b <- randint 0 (10 ^ 3) ;;
  c <- random ;;
  d <- datetime_now ;;
  s <- _get_random_string 100 ;;
  ret [VInt a; VInt b; VFloat c; VDatetime d; VStr s].

Definition bulk_scenario (conn : option connection) (n : Z) : M unit :=
  _init_table conn ;;
  logger_debug (MInsertBulk n) ;;
  tic <- time_ ;;
  all_data <- for_fold (py_range 0 n) []
                (fun _ acc => f <- synthetic_fields ;; ret (acc ++ [VTuple f])) ;;
  sql_time <- _execute conn (SqlInsertValues table_name columns []) (VTuple all_data) true ;;
  toc <- time_ ;;
  secho (NBulk n (round_dec (toc - tic)%float 3) (round_dec sql_time 3)) Bold.

Definition copy_scenario (conn : option connection) (role path : option string) (n : Z)
  : M unit :=
  if negb (truthy_opt role && truthy_opt path) then
    secho NCopyParamsRequired BgRed ;; sys_exit 1
  else
    _init_table conn ;;
    logger_debug (MInsertCopy n) ;;
    tic <- time_ ;;
    all_data <- for_fold (py_range 0 n) []
                  (fun _ acc => f <- synthetic_fields ;; ret (acc ++ [f])) ;;
    match DataFrame all_data columns with
    | inl e => raise e
    | inr df_total =>
        stamp <- datetime_now ;;
        let output_file :=
          (rstrip_slash (opt_str path) ++ "/_rs_benchmark/"
             ++ env_strftime E stamp ++ ".csv")%string in
        to_csv df_total output_file ";" ;;
        sql_time <- _execute conn
                      (SqlCopy table_name output_file (opt_str role)
                               "YYYY-MM-DD HH:MI:SS" ";" 1) VNone true ;;
        toc <- time_ ;;
        secho (NCopy n (round_dec (toc - tic)%float 3) (round_dec sql_time 3)) Bold
    end.

Definition classic_scenario (conn : option connection) (n : Z) : M unit :=
  n' <- (if n >? max_records
         then secho (NClassicMax max_records) BgRed ;; ret max_records
         else ret n) ;;
  _init_table conn ;;
  logger_debug MInsertClassic ;;
  tic <- time_ ;;
  sql_time <- for_fold (py_range 1 n') 0%float
                (fun _ acc =>
                   f <- synthetic_fields ;;
                   d <- _execute conn (SqlInsertPlaceholders table_name columns 5)
                          (VTuple f) true ;;
                   ret (acc + d)%float) ;;
  toc <- time_ ;;
  secho (NClassic n' (round_dec (toc - tic)%float 3) (round_dec sql_time 3)) Bold.

(** The three scenario blocks of [insert], in source order. *)
Definition run_scenarios (conn : option connection) (o : options) : M unit :=
  (if scenario_in (scenario o) [SBulk; SAll]
   then bulk_scenario conn (nbr_of_records o) else ret tt) ;;
  (if scenario_in (scenario o) [SCopy; SAll]
   then copy_scenario conn (copy_iam_role o) (copy_s3_path o) (nbr_of_records o)
   else ret tt) ;;
  (if scenario_in (scenario o) [SClassic; SAll]
   then classic_scenario conn (nbr_of_records o) else ret tt).

Definition insert (o : options) : M unit :=
  _init_logger (debug o) ;;
  conn <- _connect_redshift (db_host o) (db_port o) (db_name o) (db_user o) ;;
  seed 1 ;;
  run_scenarios conn o.

(** The process exit status: 0 on normal return, the code of [sys.exit],
    1 after an uncaught exception.  The module-level [finally] only tries
    [conn.close()] on a name that is never bound there, and swallows the
    resulting error, so it changes nothing. *)
Definition exit_status (r : outcome unit) : Z :=
  match r with
  | Ok _ => 0
  | Raise _ => 1
  | Exit c => c
  end.

End Program.

(** A fresh process: nothing in the warehouse session, nothing written. *)
Definition initial_world : world :=
  World [] [] [] [] 0 0%nat 0%nat false None false.

(** * Vocabulary of the statements *)

(** The slices [_execute] cuts out of [l], in order: one per start that
    [range(0, len(l), step)] yields. *)
Definition chunks {A} (step : nat) (l : list A) : list (list A) :=
  map (fun x => slice l x (x + step)) (range_step 0 (List.length l) step).

Definition is_lowercase (s : string) : Prop :=
  Forall (fun c => In c ascii_lowercase) (list_ascii_of_string s).

(** What the generator guarantees of a row's five fields. *)
Definition generated_row (f : list pyval) : Prop :=
  exists a b c t s,
    f = [VInt a; VInt b; VFloat c; VDatetime t; VStr s]
    /\ 0 <= a <= 10 ^ 9
    /\ 0 <= b <= 10 ^ 3
    /\ (c < 2 ^ 53)%N
    /\ String.length s = 100%nat
    /\ is_lowercase s.

(** [c / 2^53] is a multiple of [1/100]. *)
Definition two_decimals (c : N) : Prop := exists k : N, (100 * c = k * 2 ^ 53)%N.

(** The ranges as the specification words them: both integer ranges half-open
    and the decimal field already rounded to scale 2. *)
Definition claimed_row (f : list pyval) : Prop :=
  exists a b c t s,
    f = [VInt a; VInt b; VFloat c; VDatetime t; VStr s]
    /\ 0 <= a < 10 ^ 9
    /\ 0 <= b < 10 ^ 3
    /\ (c < 2 ^ 53)%N /\ two_decimals c
    /\ String.length s = 100%nat
    /\ is_lowercase s.

(** The error of using [None] as a connection. *)
Definition dead_handle : exn :=
  AttributeError "'NoneType' object has no attribute 'autocommit'".

(** The statements as they appear in [w_issued]. *)
Definition drop_stmt : issued := Issued (SqlDrop table_name) None.

Definition create_stmt : issued := Issued (SqlCreateTemp table_name staging_schema) None.

Definition bulk_insert_stmt (tuples : list (list pyval)) : issued :=
  Issued (SqlInsertValues table_name columns tuples) None.

Definition classic_insert_stmt (f : list pyval) : issued :=
  Issued (SqlInsertPlaceholders table_name columns 5) (Some (VTuple f)).

Definition copy_stmt (file role : string) : issued :=
  Issued (SqlCopy table_name file role "YYYY-MM-DD HH:MI:SS" ";" 1) None.

Definition is_create (q : issued) : bool :=
  match i_sql q with SqlCreateTemp _ _ => true | _ => false end.

Definition is_insert (q : issued) : bool :=
  match i_sql q with
  | SqlInsertValues _ _ _ | SqlInsertPlaceholders _ _ _ => true
  | _ => false
  end.

Definition count_creates (l : list issued) : nat := List.length (filter is_create l).

Definition is_identity (col : column) : bool :=
  match col_type col with TBigintIdentity _ _ => true | _ => false end.

Definition debug_line (dbg : bool) (m : message) : list event :=
  if dbg then [Log DEBUG m] else [].

Definition table_present (w : world) : bool :=
  match db_get (w_db w) table_name with Some _ => true | None => false end.

(** Clock readings [_init_table] consumes: the rejected drop never takes its
    second reading. *)
Definition init_ticks (w : world) : nat := if table_present w then 4%nat else 3%nat.

(** The statement time [_init_table] sums up: the drop's, when the drop was
    accepted, plus the create's. *)
Definition init_sql_time (E : environ) (w : world) : float :=
  let p := w_clock w in
  if table_present w
  then (0 + (reading E (p + 1) - reading E p)
        + (reading E (p + 3) - reading E (p + 2)))%float
  else (0 + (reading E (p + 2) - reading E (p + 1)))%float.

(** What [_init_table] prints. *)
Definition init_console (E : environ) (w : world) : list event :=
  (if table_present w then []
   else if w_debug w
        then [Log DEBUG (MDropIgnored (ProgrammingError "table does not exist"))]
        else [])
  ++ [Log INFO (MCreateTableExecuted (round_dec (init_sql_time E w / 1000) 4))].

(** The world [_init_table] leaves over a live connection. *)
Definition after_init (E : environ) (w : world) : world :=
  World (db_set (w_db w) table_name (Some (Table staging_schema []))) (w_fs w)
        (w_issued w ++ [drop_stmt; create_stmt]) (w_console w ++ init_console E w)
        (w_seed w) (w_rng w) (w_clock w + init_ticks w) true (w_password w) (w_debug w).

(** The file the copy scenario writes, stamped with a clock reading. *)
Definition output_file (E : environ) (path : string) (stamp : Q) : string :=
  (rstrip_slash path ++ "/_rs_benchmark/" ++ env_strftime E stamp ++ ".csv")%string.

(** Statement time of [k] classic inserts, the first row drawn at reading [p]. *)
Fixpoint classic_sql_time (E : environ) (k p : nat) (acc : float) : float :=
  match k with
  | O => acc
  | S k' =>
      classic_sql_time E k' (p + 3)
        (acc + (reading E (p + 2) - reading E (p + 1)))%float
  end.

(** The scenarios a selector stands for, in the order [insert] runs them. *)
Definition selected (s : scenario_choice) : list scenario_choice :=
  match s with
  | SAll => [SBulk; SCopy; SClassic]
  | _ => [s]
  end.

Definition copy_selected (s : scenario_choice) : bool := scenario_in s [SCopy; SAll].

Definition copy_params_given (o : options) : bool :=
  truthy_opt (copy_iam_role o) && truthy_opt (copy_s3_path o).

(** The run reaches its end: at least one record if the bulk scenario is
    selected, both copy parameters if the copy scenario is. *)
Definition completes (o : options) : bool :=
  (negb (scenario_in (scenario o) [SBulk; SAll]) || (1 <=? nbr_of_records o))
  && (negb (copy_selected (scenario o)) || copy_params_given o).

(** The only run that never touches the handle: the copy scenario alone with
    a copy parameter missing. *)
Definition stops_at_copy_check (o : options) : bool :=
  match scenario o with
  | SCopy => negb (copy_params_given o)
  | _ => false
  end.

(** The server accepts, or refuses with [e], every connection attempt. *)
Definition accepts (E : environ) : Prop := forall ci, env_connect E ci = None.

Definition refuses (E : environ) (e : exn) : Prop :=
  forall ci, env_connect E ci = Some e.

(** The password the first connection attempt settles on. *)
Definition password_after (E : environ) (w : world) : option string :=
  if truthy_opt (w_password w) then w_password w
  else if truthy_opt (env_db_password E) then env_db_password E
       else Some (env_getpass E).

(** The world in which the scenarios start: logger set, password resolved,
    generator seeded. *)
Definition started (E : environ) (o : options) (extra : list event) : world :=
  World [] [] []
        (debug_line (debug o) (MConnectTo (db_user o) (db_host o) (db_name o)) ++ extra)
        1 0%nat 0%nat false (password_after E initial_world) (debug o).

(** What the specification promises of a run with a copy parameter missing:
    exit status 1, the error line printed, and no statement handed to the
    cursor. *)
Definition exits_before_any_sql (E : environ) (o : options) : Prop :=
  exit_status (fst (insert E o initial_world)) = 1
  /\ In (Secho NCopyParamsRequired BgRed) (w_console (snd (insert E o initial_world)))
  /\ w_issued (snd (insert E o initial_world)) = [].

(** The record count the classic scenario works with. *)
Definition clamped (n : Z) : Z := if n >? max_records then max_records else n.

(** A computation that leaves the connection's autocommit flag alone. *)
Definition keeps_autocommit {A} (m : M A) : Prop :=
  forall w, w_autocommit (snd (m w)) = w_autocommit w.

(** What [round(x, d)] must return, said without the way it is computed: for
    a finite [x], the float nearest to [k / 10^d] for an integer [k] within
    one half of [x * 10^d], even when [x * 10^d] lies half-way, and a zero of
    [x]'s sign when [k] is 0; for any other [x], [x] itself. *)
Definition rounds_to (x : float) (d : nat) (v : float) : Prop :=
  if is_finite x then
    exists k : Z,
      (inject_Z k - (1 # 2) <= F2Q x * inject_Z (10 ^ Z.of_nat d))%Q
      /\ (F2Q x * inject_Z (10 ^ Z.of_nat d) <= inject_Z k + (1 # 2))%Q
      /\ ((F2Q x * inject_Z (10 ^ Z.of_nat d) == inject_Z k + (1 # 2))%Q
          \/ (F2Q x * inject_Z (10 ^ Z.of_nat d) == inject_Z k - (1 # 2))%Q
          -> Z.even k = true)
      /\ v = (if k =? 0 then zero_like x
              else Q2F (Qmake k (Z.to_pos (10 ^ Z.of_nat d))))
  else v = x.

(** Every row is a tuple of five fields, as [mogrify]'s template expects. *)
Definition five_fields (rows : list (list pyval)) : Prop :=
  Forall (fun r => List.length r = 5%nat) rows.

(** ** Concrete surroundings *)

(** An accepting server, a clock that advances by an eighth of a second per
    reading, and a fixed stream of raw draws. *)
Definition sample_env : environ :=
  Environ (fun s i => N.of_nat i * 7919 + Z.to_N s)%N
          (fun i => inject_Z (Z.of_nat i) / inject_Z 8)%Q
          (fun _ => "20200101-00:00:00")
          (Some "secret") "typed" (fun _ => None).

(** Raw draws that land on the upper ends. *)
Definition extreme_env : environ :=
  Environ (fun _ i => match i with
                      | O => 1000000000
                      | S O => 1000
                      | _ => 1
                      end)%N
          (fun i => inject_Z (Z.of_nat i))
          (fun _ => "20200101-00:00:00")
          (Some "secret") "typed" (fun _ => None).

(** A server that refuses every connection attempt. *)
Definition unreachable_env : environ :=
  Environ (env_random sample_env) (env_clock sample_env) (env_strftime sample_env)
          (Some "secret") "typed"
          (fun _ => Some (OperationalError "could not connect to server")).


(** Two rows of the shape the generator gives, and a world in which the
    staging table has just been created. *)
Definition sample_text : string := string_of_list_ascii (repeat "a"%char 100).

Definition sample_rows : list (list pyval) :=
  [ [VInt 1; VInt 2; VFloat 3; VDatetime (inject_Z 0); VStr sample_text];
    [VInt 4; VInt 5; VFloat 6; VDatetime (inject_Z 1); VStr sample_text] ].

Definition staged_world : world :=
  snd (_init_table sample_env (Some Conn) initial_world).

Definition sample_options (n : Z) (s : scenario_choice) : options :=
  Options "host" 5439 "db" "user" (Some "s3://bucket/") (Some "role") n s false.

(** The same invocation without the copy parameters (both are optional on the
    command line). *)
Definition bare_options (n : Z) (s : scenario_choice) : options :=
  Options "host" 5439 "db" "user" None None n s false.

(** * Properties *)

Unset Implicit Arguments.

(** ** The warehouse model *)

Lemma db_get_remove (d : database) (n : string) : db_get (db_remove d n) n = None.
Proof.
  induction d as [|[k t] rest IH]; simpl; [reflexivity|].
  destruct (String.eqb k n) eqn:Hk; simpl; [assumption|].
  rewrite Hk. assumption.
Qed.

Lemma db_remove_idem (d : database) (n : string) :
  db_remove (db_remove d n) n = db_remove d n.
Proof.
  induction d as [|[k t] rest IH]; simpl; [reflexivity|].
  destruct (String.eqb k n) eqn:Hk; simpl; [assumption|].
  rewrite Hk, IH. reflexivity.
Qed.

Lemma db_get_set (d : database) (n : string) (o : option table) :
  db_get (db_set d n o) n = o.
Proof.
  destruct o; simpl.
  - rewrite String.eqb_refl. reflexivity.
  - apply db_get_remove.
Qed.

Lemma db_set_set (d : database) (n : string) (o o' : option table) :
  db_set (db_set d n o) n o' = db_set d n o'.
Proof.
  destruct o, o'; simpl; rewrite ?String.eqb_refl, ?db_remove_idem; reflexivity.
Qed.

Arguments db_get : simpl never.
Arguments db_remove : simpl never.
Arguments db_set : simpl never.

(** ** Chunking: [range(0, len, step)] and the slices it cuts *)

Section Chunks.

Variable A : Type.
Variable step : nat.
Hypothesis step_pos : (0 < step)%nat.

Lemma range_step_aux_length (fuel x stop : nat) :
  (stop - x <= fuel)%nat ->
  List.length (range_step_aux fuel x stop step)
  = ((stop - x + (step - 1)) / step)%nat.
Proof.
  revert x. induction fuel as [|fuel IH]; intros x Hf; simpl.
  - replace (stop - x)%nat with 0%nat by lia. simpl.
    symmetry. apply Nat.div_small. lia.
  - destruct (Nat.ltb_spec x stop) as [Hlt|Hge].
    + simpl. rewrite IH by lia.
      destruct (Nat.le_gt_cases step (stop - x)) as [Hbig|Hsmall].
      * replace (stop - x + (step - 1))%nat
          with (1 * step + (stop - (x + step) + (step - 1)))%nat by lia.
        rewrite Nat.div_add_l by lia. reflexivity.
      * replace (stop - (x + step))%nat with 0%nat by lia. simpl.
        rewrite (Nat.div_small (step - 1) step) by lia.
        apply (Nat.div_unique _ _ 1%nat (stop - x - 1)%nat); lia.
    + simpl. replace (stop - x)%nat with 0%nat by lia. simpl.
      symmetry. apply Nat.div_small. lia.
Qed.

Lemma range_step_aux_below (fuel x stop : nat) :
  Forall (fun y => (y < stop)%nat) (range_step_aux fuel x stop step).
Proof.
  revert x. induction fuel as [|fuel IH]; intros x; simpl; [constructor|].
  destruct (Nat.ltb_spec x stop); constructor; auto.
Qed.

Lemma range_step_aux_concat (l : list A) (fuel x : nat) :
  (List.length l - x <= fuel)%nat ->
  List.concat (map (fun y => slice l y (y + step)) (range_step_aux fuel x (List.length l) step))
  = skipn x l.
Proof.
  revert x. induction fuel as [|fuel IH]; intros x Hf; simpl.
  - symmetry. apply skipn_all2. lia.
  - destruct (Nat.ltb_spec x (List.length l)) as [Hlt|Hge]; simpl.
    + rewrite IH by lia. unfold slice.
      replace (x + step - x)%nat with step by lia.
      rewrite Nat.add_comm, <- skipn_skipn.
      apply firstn_skipn.
    + symmetry. apply skipn_all2. lia.
Qed.

(** The loop runs [ceil(len / step)] times. *)
Lemma chunks_length (l : list A) :
  List.length (chunks step l) = ((List.length l + (step - 1)) / step)%nat.
Proof.
  unfold chunks, range_step. rewrite length_map, range_step_aux_length by lia.
  rewrite Nat.sub_0_r. reflexivity.
Qed.

(** The slices partition the data. *)
Lemma chunks_concat (l : list A) : List.concat (chunks step l) = l.
Proof.
  unfold chunks, range_step. rewrite range_step_aux_concat by lia. reflexivity.
Qed.

(** No slice is empty and none exceeds [step]. *)
Lemma chunks_bounds (l : list A) :
  Forall (fun c => (1 <= List.length c <= step)%nat) (chunks step l).
Proof.
  unfold chunks. apply Forall_map.
  eapply Forall_impl; [|apply range_step_aux_below].
  intros y Hy. unfold slice.
  rewrite length_firstn, length_skipn. cbv beta in Hy. lia.
Qed.

End Chunks.

(** ** Stepping through the monad *)

Lemma bind_ok {A B} (m : M A) (k : A -> M B) (w w' : world) (a : A) :
  m w = (Ok a, w') -> bind m k w = k a w'.
Proof. intros H. unfold bind. rewrite H. reflexivity. Qed.

Lemma bind_raise {A B} (m : M A) (k : A -> M B) (w w' : world) (e : exn) :
  m w = (Raise e, w') -> bind m k w = (Raise e, w').
Proof. intros H. unfold bind. rewrite H. reflexivity. Qed.

Lemma bind_exit {A B} (m : M A) (k : A -> M B) (w w' : world) (c : Z) :
  m w = (Exit c, w') -> bind m k w = (Exit c, w').
Proof. intros H. unfold bind. rewrite H. reflexivity. Qed.

Lemma py_range_length (a b : Z) : List.length (py_range a b) = Z.to_nat (b - a).
Proof. unfold py_range. rewrite length_map, length_seq. reflexivity. Qed.

(** Two worlds built with [World] are compared field by field. *)
Ltac world_eq :=
  unfold advance, draw, tick, issue, emit, with_db, with_file, with_autocommit,
    with_password, with_debug, reseed; simpl;
  repeat rewrite <- app_assoc; simpl;
  repeat first [ reflexivity | lia | progress f_equal ].

(** The same without unfolding arithmetic, for worlds reached in a loop. *)
Ltac world_eq_loop :=
  unfold advance, draw, tick, issue, emit, with_db, with_file, with_autocommit,
    with_password, with_debug, reseed;
  cbn [w_db w_fs w_issued w_console w_seed w_rng w_clock w_autocommit w_password
       w_debug app List.length t_schema t_rows df_columns df_rows skipn];
  repeat rewrite <- app_assoc;
  cbn [app];
  repeat first [ reflexivity | lia | progress f_equal ].

(** Collapse the projections of an explicit world, so that a world threaded
    through several steps stays one [World] of small fields. *)
Ltac flat :=
  unfold advance, draw, tick, issue, emit, with_db, with_file, with_autocommit,
    with_password, with_debug, reseed;
  cbn [w_db w_fs w_issued w_console w_seed w_rng w_clock w_autocommit w_password
       w_debug t_schema t_rows df_columns df_rows].

(** One [bind] whose first computation is described by a lemma. *)
Ltac step_with tac := erewrite bind_ok; [|tac]; flat.

Lemma advance_advance (r1 c1 r2 c2 : nat) (w : world) :
  advance r2 c2 (advance r1 c1 w) = advance (r1 + r2) (c1 + c2) w.
Proof. world_eq. Qed.

(** ** The row generator *)

Lemma generated_row_length (f : list pyval) : generated_row f -> List.length f = 5%nat.
Proof. intros (a & b & c & t & s & -> & _). reflexivity. Qed.

Lemma string_of_list_ascii_length (cs : list ascii) :
  String.length (string_of_list_ascii cs) = List.length cs.
Proof. induction cs; simpl; congruence. Qed.

Section Generator.

Variable E : environ.

Lemma randint_spec (a b : Z) (w : world) :
  a <= b ->
  exists v, randint E a b w = (Ok v, draw w) /\ a <= v <= b.
Proof.
  intros Hab. unfold randint, bind, randbelow, ret.
  eexists. split; [reflexivity|].
  pose proof (N.mod_lt (env_random E (w_seed w) (w_rng w)) (Z.to_N (b - a + 1))) as H.
  set (k := (env_random E (w_seed w) (w_rng w) mod Z.to_N (b - a + 1))%N) in *.
  assert (Hk : (k < Z.to_N (b - a + 1))%N) by (apply H; lia).
  lia.
Qed.

Lemma random_spec (w : world) :
  exists c, random E w = (Ok c, draw w) /\ (c < 2 ^ 53)%N.
Proof.
  unfold random, randbelow. eexists. split; [reflexivity|].
  apply N.mod_lt. discriminate.
Qed.

Lemma choice_lowercase (w : world) :
  exists c, choice E ascii_lowercase w = (Ok c, draw w) /\ In c ascii_lowercase.
Proof.
  eexists. split; [reflexivity|].
  apply nth_In.
  assert (H : (env_random E (w_seed w) (w_rng w) mod 26 < 26)%N)
    by (apply N.mod_lt; discriminate).
  change (List.length ascii_lowercase) with 26%nat.
  change (N.of_nat 26) with 26%N. lia.
Qed.

Lemma random_letters (l : list Z) (acc : list ascii) (w : world) :
  exists cs,
    for_fold l acc (fun _ acc => c <- choice E ascii_lowercase ;; ret (acc ++ [c])) w
    = (Ok (acc ++ cs), advance (List.length l) 0 w)
    /\ List.length cs = List.length l
    /\ Forall (fun c => In c ascii_lowercase) cs.
Proof.
  revert acc w. induction l as [|i l IH]; intros acc w.
  - exists []. simpl. rewrite app_nil_r. split; [|split; [reflexivity|constructor]].
    unfold ret. destruct w. world_eq.
  - destruct (choice_lowercase w) as (c & Hc & Hin).
    destruct (IH (acc ++ [c]) (draw w)) as (cs & Hcs & Hlen & Hall).
    exists (c :: cs). split; [|split].
    + cbn [for_fold]. erewrite bind_ok; [|erewrite bind_ok; [|exact Hc]; reflexivity].
      rewrite Hcs, <- app_assoc. world_eq.
    + simpl. congruence.
    + constructor; assumption.
Qed.

Lemma _get_random_string_spec (len : Z) (w : world) :
  exists s,
    _get_random_string E len w = (Ok s, advance (Z.to_nat len) 0 w)
    /\ String.length s = Z.to_nat len
    /\ is_lowercase s.
Proof.
  destruct (random_letters (py_range 0 len) [] w) as (cs & Hcs & Hlen & Hall).
  rewrite py_range_length, Z.sub_0_r in Hcs, Hlen.
  exists (string_of_list_ascii cs). split; [|split].
  - unfold _get_random_string. erewrite bind_ok; [|exact Hcs]. reflexivity.
  - rewrite string_of_list_ascii_length. assumption.
  - unfold is_lowercase. rewrite list_ascii_of_string_of_list_ascii. assumption.
Qed.

(** One row: five fields in source order, 103 draws and one clock reading. *)
Lemma synthetic_fields_spec (w : world) :
  exists f,
    synthetic_fields E w = (Ok f, advance 103 1 w)
    /\ generated_row f
    /\ nth 3 f VNone = VDatetime (env_clock E (w_clock w)).
Proof.
  destruct (randint_spec 0 (10 ^ 9) w) as (a & Ha & Hra); [lia|].
  destruct (randint_spec 0 (10 ^ 3) (draw w)) as (b & Hb & Hrb); [lia|].
  destruct (random_spec (draw (draw w))) as (c & Hc & Hrc).
  destruct (_get_random_string_spec 100 (tick (draw (draw (draw w)))))
    as (s & Hs & Hlen & Hlow).
  exists [VInt a; VInt b; VFloat c; VDatetime (env_clock E (w_clock w)); VStr s].
  split.
  - unfold synthetic_fields.
    erewrite bind_ok; [|exact Ha]. erewrite bind_ok; [|exact Hb].
    erewrite bind_ok; [|exact Hc].
    erewrite bind_ok; [|reflexivity]. erewrite bind_ok; [|exact Hs].
    unfold ret. world_eq.
  - split; [|reflexivity].
    exists a, b, c, (env_clock E (w_clock w)), s. repeat split; try lia; assumption.
Qed.

(** The generation loop of the bulk and copy scenarios: one row per index. *)
Lemma generate_rows {X} (wrap : list pyval -> X) (l : list Z) (acc : list X) (w : world) :
  exists rows,
    for_fold l acc (fun _ acc => f <- synthetic_fields E ;; ret (acc ++ [wrap f])) w
    = (Ok (acc ++ map wrap rows), advance (103 * List.length l) (List.length l) w)
    /\ List.length rows = List.length l
    /\ Forall generated_row rows.
Proof.
  revert acc w. induction l as [|i l IH]; intros acc w.
  - exists []. simpl. rewrite app_nil_r. split; [|split; [reflexivity|constructor]].
    unfold ret. destruct w. world_eq.
  - destruct (synthetic_fields_spec w) as (f & Hf & Hrow & _).
    destruct (IH (acc ++ [wrap f]) (advance 103 1 w)) as (rows & Hrows & Hlen & Hall).
    exists (f :: rows). split; [|split].
    + cbn [for_fold]. erewrite bind_ok; [|erewrite bind_ok; [|exact Hf]; reflexivity].
      rewrite Hrows, <- app_assoc. cbn [map List.length]. world_eq.
    + simpl. congruence.
    + constructor; assumption.
Qed.

End Generator.

(** ** Statements, one at a time *)

Lemma append_rows_nil (tb : table) : append_rows tb [] = tb.
Proof. destruct tb. unfold append_rows. simpl. rewrite app_nil_r. reflexivity. Qed.

Lemma append_rows_app (tb : table) (r1 r2 : list (list pyval)) :
  append_rows (append_rows tb r1) r2 = append_rows tb (r1 ++ r2).
Proof. unfold append_rows. simpl. rewrite app_assoc. reflexivity. Qed.

Lemma mogrify_all_tuples (rows : list (list pyval)) :
  Forall (fun r => List.length r = 5%nat) rows ->
  mogrify_all 5 (map VTuple rows) = inr rows.
Proof.
  induction 1 as [|r rows Hr _ IH]; simpl; [reflexivity|].
  rewrite Hr, IH. reflexivity.
Qed.

Lemma slice_map {A B} (f : A -> B) (l : list A) (a b : nat) :
  slice (map f l) a b = map f (slice l a b).
Proof. unfold slice. rewrite skipn_map, firstn_map. reflexivity. Qed.

Lemma slice_Forall {A} (P : A -> Prop) (l : list A) (a b : nat) :
  Forall P l -> Forall P (slice l a b).
Proof.
  intros H. unfold slice.
  assert (Hs : Forall P (skipn a l)).
  { clear b. revert a. induction H as [|x l Hx Hl IH]; intros [|a]; simpl; auto. }
  revert Hs. generalize (skipn a l) (b - a)%nat. clear.
  intros l' n Hl'. revert n. induction Hl' as [|x l' Hx Hl' IH]; intros [|n]; simpl; auto.
Qed.

Lemma slice_nonempty {A} (l : list A) (x step : nat) :
  (x < List.length l)%nat -> (0 < step)%nat -> slice l x (x + step) <> [].
Proof.
  intros Hx Hs Hnil. apply (f_equal (@List.length A)) in Hnil.
  unfold slice in Hnil. rewrite length_firstn, length_skipn in Hnil. simpl in Hnil. lia.
Qed.

Lemma max_nbr_of_tuples_pos : (0 < max_nbr_of_tuples)%nat.
Proof. unfold max_nbr_of_tuples. lia. Qed.

Lemma max_nbr_of_tuples_value : Z.of_nat max_nbr_of_tuples = 50000.
Proof. unfold max_nbr_of_tuples. lia. Qed.

Section Statements.

Variable E : environ.

#[local] Opaque max_nbr_of_tuples.

Lemma execute_dead (sql : sql_text) (data : pyval) (ac : bool) (w : world) :
  _execute E None sql data ac w = (Raise dead_handle, w).
Proof. reflexivity. Qed.

Lemma execute_plain_ok (c : connection) (sql : sql_text) (d : database) (w : world) :
  db_exec (w_fs w) (Issued sql None) (w_db w) = inr d ->
  _execute E (Some c) sql VNone true w
  = (Ok (reading E (w_clock w + 1) - reading E (w_clock w))%float,
     World d (w_fs w) (w_issued w ++ [Issued sql None]) (w_console w) (w_seed w)
           (w_rng w) (w_clock w + 2) true (w_password w) (w_debug w)).
Proof.
  intros H. destruct w. simpl in H.
  unfold _execute, bind, modify, time_, cur_execute. simpl. rewrite H. simpl.
  unfold ret. world_eq.
Qed.

Lemma execute_plain_err (c : connection) (sql : sql_text) (e : exn) (w : world) :
  db_exec (w_fs w) (Issued sql None) (w_db w) = inl e ->
  _execute E (Some c) sql VNone true w
  = (Raise e,
     World (w_db w) (w_fs w) (w_issued w ++ [Issued sql None]) (w_console w) (w_seed w)
           (w_rng w) (w_clock w + 1) true (w_password w) (w_debug w)).
Proof.
  intros H. destruct w. simpl in H.
  unfold _execute, bind, modify, time_, cur_execute. simpl. rewrite H. simpl.
  world_eq.
Qed.

Lemma logger_debug_spec (m : message) (w : world) :
  logger_debug m w
  = (Ok tt,
     World (w_db w) (w_fs w) (w_issued w)
           (w_console w ++ (if w_debug w then [Log DEBUG m] else []))
           (w_seed w) (w_rng w) (w_clock w) (w_autocommit w) (w_password w) (w_debug w)).
Proof.
  destruct w as [db fs iss con sd rng ck ac pw dbg]. unfold logger_debug. simpl.
  destruct dbg; simpl; [reflexivity | rewrite app_nil_r; reflexivity].
Qed.

(** One parameterized INSERT of a generated row. *)
Lemma execute_param (c : connection) (f : list pyval) (d : database) (tb : table)
      (w : world) :
  generated_row f ->
  w_db w = db_set d table_name (Some tb) ->
  _execute E (Some c) (SqlInsertPlaceholders table_name columns 5) (VTuple f) true w
  = (Ok (reading E (w_clock w + 1) - reading E (w_clock w))%float,
     World (db_set d table_name (Some (append_rows tb [f]))) (w_fs w)
           (w_issued w
            ++ [Issued (SqlInsertPlaceholders table_name columns 5) (Some (VTuple f))])
           (w_console w) (w_seed w) (w_rng w) (w_clock w + 2) true
           (w_password w) (w_debug w)).
Proof.
  intros (a & b & x & t & s & -> & _) Hdb. destruct w. simpl in Hdb. subst.
  unfold _execute, bind, modify, time_, cur_execute, db_exec. simpl.
  rewrite ?db_get_set. simpl. rewrite db_set_set.
  unfold ret. world_eq.
Qed.

(** The chunk loop of a bulk insert, for any list of slice starts. *)
Lemma bulk_loop (rows : list (list pyval)) (xs : list nat) (d : database) (tb : table)
      (w : world) :
  Forall (fun r => List.length r = 5%nat) rows ->
  Forall (fun x => (x < List.length rows)%nat) xs ->
  w_db w = db_set d table_name (Some tb) ->
  for_fold xs tt
    (fun x _ =>
       match mogrify_all 5 (slice (map VTuple rows) x (x + max_nbr_of_tuples)) with
       | inl e => raise e
       | inr ts =>
           cur_execute (sql_append_tuples (SqlInsertValues table_name columns []) ts) None
       end) w
  = (Ok tt,
     World (db_set d table_name
              (Some (append_rows tb
                 (List.concat (map (fun x => slice rows x (x + max_nbr_of_tuples)) xs)))))
           (w_fs w)
           (w_issued w
            ++ map (fun x => Issued (SqlInsertValues table_name columns
                                       (slice rows x (x + max_nbr_of_tuples))) None) xs)
           (w_console w) (w_seed w) (w_rng w) (w_clock w) (w_autocommit w)
           (w_password w) (w_debug w)).
Proof.
  intros Hrows Hxs. revert tb w.
  induction Hxs as [|x xs Hx _ IH]; intros tb w Hdb.
  - destruct w. simpl in Hdb. subst. simpl.
    rewrite append_rows_nil, app_nil_r. reflexivity.
  - cbn [for_fold map List.concat].
    rewrite slice_map, mogrify_all_tuples by (apply slice_Forall; assumption).
    pose proof (slice_nonempty rows x max_nbr_of_tuples Hx max_nbr_of_tuples_pos) as Hne.
    pose proof (slice_Forall _ rows x (x + max_nbr_of_tuples) Hrows) as Hall.
    set (ch := slice rows x (x + max_nbr_of_tuples)) in *.
    assert (Hstep :
      cur_execute (sql_append_tuples (SqlInsertValues table_name columns []) ch) None w
      = (Ok tt,
         World (db_set d table_name (Some (append_rows tb ch))) (w_fs w)
               (w_issued w ++ [Issued (SqlInsertValues table_name columns ch) None])
               (w_console w) (w_seed w) (w_rng w) (w_clock w) (w_autocommit w)
               (w_password w) (w_debug w))).
    { destruct w. simpl in Hdb. subst.
      unfold cur_execute, db_exec. cbn [sql_append_tuples app i_sql i_args issue w_db w_fs].
      rewrite db_get_set. destruct ch as [|r0 ch0]; [congruence|].
      assert (Hfa : forallb (fun r => Nat.eqb (List.length r) (List.length columns))
                      (r0 :: ch0) = true).
      { apply forallb_forall. intros r Hr.
        rewrite Forall_forall in Hall. rewrite (Hall r Hr). reflexivity. }
      rewrite Hfa, db_set_set. reflexivity. }
    erewrite bind_ok; [|exact Hstep].
    rewrite (IH (append_rows tb ch)) by reflexivity.
    rewrite append_rows_app. cbn [w_issued w_fs w_console w_seed w_rng w_clock
                                  w_autocommit w_password w_debug].
    rewrite <- app_assoc. reflexivity.
Qed.

(** A bulk insert of a non-empty tuple of five-field rows: one statement per
    slice, all rows stored. *)
Lemma execute_bulk (c : connection) (rows : list (list pyval)) (d : database)
      (tb : table) (w : world) :
  rows <> [] ->
  Forall (fun r => List.length r = 5%nat) rows ->
  w_db w = db_set d table_name (Some tb) ->
  _execute E (Some c) (SqlInsertValues table_name columns []) (VTuple (map VTuple rows))
           true w
  = (Ok (reading E (w_clock w + 1) - reading E (w_clock w))%float,
     World (db_set d table_name (Some (append_rows tb rows))) (w_fs w)
           (w_issued w
            ++ map (fun ch => Issued (SqlInsertValues table_name columns ch) None)
                   (chunks max_nbr_of_tuples rows))
           (w_console w) (w_seed w) (w_rng w) (w_clock w + 2) true
           (w_password w) (w_debug w)).
Proof.
  intros Hne Hrows Hdb.
  destruct rows as [|r rs]; [congruence|].
  unfold _execute.
  erewrite bind_ok; [|reflexivity]. erewrite bind_ok; [|reflexivity].
  cbn [truthy map]. change (VTuple r :: map VTuple rs) with (map VTuple (r :: rs)).
  rewrite length_map.
  erewrite bind_ok.
  2:{ apply (bulk_loop (r :: rs) _ d tb); [assumption| |exact Hdb].
      apply range_step_aux_below. }
  erewrite bind_ok; [|reflexivity].
  pose proof (chunks_concat _ max_nbr_of_tuples max_nbr_of_tuples_pos (r :: rs)) as Hc.
  unfold chunks in Hc |- *. rewrite Hc, map_map.
  unfold ret. destruct w. world_eq.
Qed.

#[local] Transparent max_nbr_of_tuples.

End Statements.

(** ** Table initialisation *)

Lemma try_except_ok {A} (m : M A) (h : exn -> M A) (w w' : world) (a : A) :
  m w = (Ok a, w') -> try_except m h w = (Ok a, w').
Proof. intros H. unfold try_except. rewrite H. reflexivity. Qed.

Lemma try_except_raise {A} (m : M A) (h : exn -> M A) (w w' : world) (e : exn) :
  m w = (Raise e, w') -> try_except m h w = h e w'.
Proof. intros H. unfold try_except. rewrite H. reflexivity. Qed.

Section Initialisation.

Variable E : environ.

Lemma init_table_spec (c : connection) (w : world) :
  _init_table E (Some c) w = (Ok tt, after_init E w).
Proof.
  unfold _init_table, after_init, init_console, init_sql_time, init_ticks, table_present.
  destruct (db_get (w_db w) table_name) as [t0|] eqn:Hg.
  - erewrite bind_ok.
    2:{ apply try_except_ok. erewrite bind_ok; [reflexivity|].
        apply execute_plain_ok. unfold db_exec. cbn [i_sql i_args]. rewrite Hg.
        reflexivity. }
    erewrite bind_ok.
    2:{ apply execute_plain_ok. unfold db_exec. cbn [i_sql i_args w_db].
        rewrite db_get_set. reflexivity. }
    rewrite db_set_set. unfold logger_info, modify, drop_stmt, create_stmt.
    destruct w. world_eq.
  - erewrite bind_ok.
    2:{ erewrite try_except_raise.
        2:{ erewrite bind_raise; [reflexivity|].
            apply execute_plain_err. unfold db_exec. cbn [i_sql i_args]. rewrite Hg.
            reflexivity. }
        erewrite bind_ok; [reflexivity|]. apply logger_debug_spec. }
    erewrite bind_ok.
    2:{ apply execute_plain_ok. unfold db_exec. cbn [i_sql i_args w_db].
        rewrite Hg. reflexivity. }
    unfold logger_info, modify, drop_stmt, create_stmt.
    destruct w. world_eq.
Qed.

(** With no connection the drop's error is swallowed and the create raises. *)
Lemma init_table_dead (w : world) :
  _init_table E None w
  = (Raise dead_handle,
     World (w_db w) (w_fs w) (w_issued w)
           (w_console w ++ (if w_debug w then [Log DEBUG (MDropIgnored dead_handle)] else []))
           (w_seed w) (w_rng w) (w_clock w) (w_autocommit w) (w_password w) (w_debug w)).
Proof.
  unfold _init_table.
  erewrite bind_ok.
  2:{ erewrite try_except_raise; [|reflexivity].
      erewrite bind_ok; [reflexivity|]. apply logger_debug_spec. }
  reflexivity.
Qed.

End Initialisation.

(** ** The three scenarios *)

Lemma generated_rows_length (rows : list (list pyval)) :
  Forall generated_row rows -> Forall (fun r => List.length r = 5%nat) rows.
Proof. apply Forall_impl. exact generated_row_length. Qed.

Lemma db_exec_copy (d : database) (tb : table) (fs : filestore) (file role : string)
      (lines : list (list pyval)) :
  db_exec ((file, Csv ";" lines) :: fs) (copy_stmt file role)
          (db_set d table_name (Some tb))
  = inr (db_set d table_name (Some (append_rows tb (skipn 1 lines)))).
Proof.
  unfold db_exec, copy_stmt. cbn [i_sql i_args fs_lookup].
  rewrite db_get_set, String.eqb_refl. cbn [csv_sep].
  rewrite String.eqb_refl, db_set_set. reflexivity.
Qed.

Section Scenarios.

Variable E : environ.

#[local] Opaque max_nbr_of_tuples.

Lemma bulk_scenario_spec (c : connection) (n : Z) (w : world) :
  1 <= n ->
  let k := Z.to_nat n in
  let q := (w_clock w + init_ticks w)%nat in
  exists rows,
    List.length rows = k
    /\ Forall generated_row rows
    /\ bulk_scenario E (Some c) n w
       = (Ok tt,
          World (db_set (w_db w) table_name (Some (Table staging_schema rows)))
                (w_fs w)
                (w_issued w ++ [drop_stmt; create_stmt]
                 ++ map bulk_insert_stmt (chunks max_nbr_of_tuples rows))
                (w_console w ++ init_console E w
                 ++ debug_line (w_debug w) (MInsertBulk n)
                 ++ [Secho (NBulk n
                              (round_dec (reading E (q + k + 3) - reading E q) 3)
                              (round_dec (reading E (q + k + 2)
                                          - reading E (q + k + 1)) 3)) Bold])
                (w_seed w) (w_rng w + 103 * k) (q + k + 4) true
                (w_password w) (w_debug w)).
Proof.
  intros Hn k q. subst q. destruct w as [db fs iss con sd rng ck ac pw dbg].
  set (w0 := World db fs iss con sd rng ck ac pw dbg).
  destruct (generate_rows E VTuple (py_range 0 n) []
              (World (db_set db table_name (Some (Table staging_schema []))) fs
                     (iss ++ [drop_stmt; create_stmt])
                     ((con ++ init_console E w0) ++ debug_line dbg (MInsertBulk n))
                     sd rng (S (ck + init_ticks w0)) true pw dbg))
    as (rows & Hgen & Hlen & Hall).
  rewrite py_range_length, Z.sub_0_r in Hgen, Hlen. fold k in Hgen, Hlen.
  exists rows. split; [assumption|]. split; [assumption|].
  unfold bulk_scenario.
  step_with ltac:(apply init_table_spec). unfold after_init. flat.
  step_with ltac:(apply logger_debug_spec).
  step_with ltac:(reflexivity).
  step_with ltac:(exact Hgen).
  step_with ltac:(apply (execute_bulk E c rows db (Table staging_schema []));
                  [ intros ->; simpl in Hlen; lia
                  | apply generated_rows_length; assumption
                  | reflexivity ]).
  step_with ltac:(reflexivity).
  unfold secho, modify, bulk_insert_stmt, debug_line, append_rows.
  subst w0. world_eq_loop.
Qed.

(** With no rows the data tuple is empty, hence false: the bare INSERT prefix
    is sent and rejected. *)
Lemma bulk_scenario_no_rows (c : connection) (n : Z) (w : world) :
  n <= 0 ->
  bulk_scenario E (Some c) n w
  = (Raise (ProgrammingError "syntax error at end of input"),
     World (db_set (w_db w) table_name (Some (Table staging_schema [])))
           (w_fs w)
           (w_issued w ++ [drop_stmt; create_stmt; bulk_insert_stmt []])
           (w_console w ++ init_console E w ++ debug_line (w_debug w) (MInsertBulk n))
           (w_seed w) (w_rng w) (w_clock w + init_ticks w + 2) true
           (w_password w) (w_debug w)).
Proof.
  intros Hn. destruct w as [db fs iss con sd rng ck ac pw dbg].
  unfold bulk_scenario.
  step_with ltac:(apply init_table_spec). unfold after_init. flat.
  step_with ltac:(apply logger_debug_spec).
  step_with ltac:(reflexivity).
  unfold py_range. replace (Z.to_nat (n - 0)) with 0%nat by lia.
  cbn [seq map for_fold].
  step_with ltac:(reflexivity).
  erewrite bind_raise; [reflexivity|].
  unfold _execute. step_with ltac:(reflexivity). step_with ltac:(reflexivity).
  erewrite bind_raise; [reflexivity|].
  cbn [truthy]. unfold cur_execute, db_exec. cbn [i_sql i_args].
  unfold bulk_insert_stmt, debug_line. world_eq_loop.
Qed.

Lemma copy_scenario_spec (c : connection) (role path : string) (n : Z) (w : world) :
  role <> "" -> path <> "" ->
  let k := Z.to_nat n in
  let q := (w_clock w + init_ticks w)%nat in
  let file := output_file E path (env_clock E (q + k + 1)) in
  exists rows,
    List.length rows = k
    /\ Forall generated_row rows
    /\ copy_scenario E (Some c) (Some role) (Some path) n w
       = (Ok tt,
          World (db_set (w_db w) table_name (Some (Table staging_schema rows)))
                ((file, Csv ";" (map VStr columns :: rows)) :: w_fs w)
                (w_issued w ++ [drop_stmt; create_stmt; copy_stmt file role])
                (w_console w ++ init_console E w
                 ++ debug_line (w_debug w) (MInsertCopy n)
                 ++ [Secho (NCopy n
                              (round_dec (reading E (q + k + 4) - reading E q) 3)
                              (round_dec (reading E (q + k + 3)
                                          - reading E (q + k + 2)) 3)) Bold])
                (w_seed w) (w_rng w + 103 * k) (q + k + 5) true
                (w_password w) (w_debug w)).
Proof.
  intros Hrole Hpath k q file. destruct w as [db fs iss con sd rng ck ac pw dbg].
  set (w0 := World db fs iss con sd rng ck ac pw dbg) in *.
  destruct (generate_rows E (fun f => f) (py_range 0 n) []
              (World (db_set db table_name (Some (Table staging_schema []))) fs
                     (iss ++ [drop_stmt; create_stmt])
                     ((con ++ init_console E w0) ++ debug_line dbg (MInsertCopy n))
                     sd rng (S (ck + init_ticks w0)) true pw dbg))
    as (rows & Hgen & Hlen & Hall).
  rewrite py_range_length, Z.sub_0_r, map_id in Hgen.
  rewrite py_range_length, Z.sub_0_r in Hlen. fold k in Hgen, Hlen.
  exists rows. split; [assumption|]. split; [assumption|].
  unfold copy_scenario.
  assert (Ht : truthy_opt (Some role) && truthy_opt (Some path) = true).
  { simpl. destruct (String.eqb_spec role ""), (String.eqb_spec path "");
      simpl; congruence. }
  rewrite Ht. cbn [negb].
  step_with ltac:(apply init_table_spec). unfold after_init. flat.
  step_with ltac:(apply logger_debug_spec).
  step_with ltac:(reflexivity).
  step_with ltac:(exact Hgen).
  assert (Hdf : DataFrame rows columns = inr (Frame columns rows)).
  { unfold DataFrame.
    assert (Hfa : forallb (fun r => Nat.eqb (List.length r) (List.length columns)) rows
                  = true).
    { apply forallb_forall. intros r Hr.
      pose proof (generated_rows_length rows Hall) as H5.
      rewrite Forall_forall in H5. rewrite (H5 r Hr). reflexivity. }
    rewrite Hfa. reflexivity. }
  cbn [app]. rewrite Hdf.
  step_with ltac:(reflexivity).
  cbn [opt_str].
  replace (rstrip_slash path ++ "/_rs_benchmark/"
           ++ env_strftime E (env_clock E (S (ck + init_ticks w0) + k)) ++ ".csv")%string
    with file
    by (unfold file, output_file, q, w0; cbn [w_clock]; do 5 f_equal; lia).
  clearbody file.
  step_with ltac:(reflexivity).
  step_with ltac:(apply execute_plain_ok; apply db_exec_copy).
  step_with ltac:(reflexivity).
  unfold secho, modify, debug_line, append_rows, q, copy_stmt.
  subst w0. world_eq_loop.
Qed.

(** The classic loop: one row drawn and one parameterized INSERT per index. *)
Lemma classic_loop (c : connection) (l : list Z) (acc : float) (d : database) (tb : table)
      (w : world) :
  w_db w = db_set d table_name (Some tb) ->
  w_autocommit w = true ->
  exists rows,
    List.length rows = List.length l
    /\ Forall generated_row rows
    /\ for_fold l acc
         (fun _ acc =>
            f <- synthetic_fields E ;;
            t <- _execute E (Some c) (SqlInsertPlaceholders table_name columns 5)
                   (VTuple f) true ;;
            ret (acc + t)%float) w
       = (Ok (classic_sql_time E (List.length l) (w_clock w) acc),
          World (db_set d table_name (Some (append_rows tb rows))) (w_fs w)
                (w_issued w ++ map classic_insert_stmt rows) (w_console w) (w_seed w)
                (w_rng w + 103 * List.length l) (w_clock w + 3 * List.length l) true
                (w_password w) (w_debug w)).
Proof.
  revert acc tb w. induction l as [|i l IH]; intros acc tb w Hdb Hac.
  - exists []. split; [reflexivity|]. split; [constructor|].
    destruct w. simpl in Hdb, Hac. subst. simpl.
    rewrite append_rows_nil, app_nil_r. unfold ret. world_eq.
  - destruct (synthetic_fields_spec E w) as (f & Hf & Hrow & _).
    pose proof (execute_param E c f d tb (advance 103 1 w) Hrow Hdb) as Hex.
    match type of Hex with _ = (Ok ?t, ?w2) =>
      destruct (IH (acc + t)%float (append_rows tb [f]) w2 eq_refl eq_refl)
        as (rows & Hlen & Hall & Hloop)
    end.
    exists (f :: rows). split; [simpl; congruence|]. split; [constructor; assumption|].
    cbn [for_fold].
    erewrite bind_ok.
    2:{ erewrite bind_ok; [|exact Hf]. erewrite bind_ok; [|exact Hex]. reflexivity. }
    rewrite Hloop, append_rows_app. cbn [map List.length classic_sql_time].
    destruct w. world_eq_loop.
Qed.

Lemma classic_scenario_spec (c : connection) (n : Z) (w : world) :
  let n' := if n >? max_records then max_records else n in
  let k := Z.to_nat (n' - 1) in
  let q := (w_clock w + init_ticks w)%nat in
  exists rows,
    List.length rows = k
    /\ Forall generated_row rows
    /\ classic_scenario E (Some c) n w
       = (Ok tt,
          World (db_set (w_db w) table_name (Some (Table staging_schema rows)))
                (w_fs w)
                (w_issued w ++ [drop_stmt; create_stmt] ++ map classic_insert_stmt rows)
                (w_console w
                 ++ (if n >? max_records then [Secho (NClassicMax max_records) BgRed]
                     else [])
                 ++ init_console E w
                 ++ debug_line (w_debug w) MInsertClassic
                 ++ [Secho (NClassic n'
                              (round_dec (reading E (q + 3 * k + 1) - reading E q) 3)
                              (round_dec (classic_sql_time E k (q + 1) 0) 3)) Bold])
                (w_seed w) (w_rng w + 103 * k) (q + 3 * k + 2) true
                (w_password w) (w_debug w)).
Proof.
  intros n' k q. destruct w as [db fs iss con sd rng ck ac pw dbg].
  set (w0 := World db fs iss con sd rng ck ac pw dbg) in *.
  set (warn := if n >? max_records then [Secho (NClassicMax max_records) BgRed] else []).
  assert (H0 : (if n >? max_records
                then secho (NClassicMax max_records) BgRed ;; ret max_records
                else ret n) w0
               = (Ok n', World db fs iss (con ++ warn) sd rng ck ac pw dbg)).
  { unfold n', warn, w0. destruct (n >? max_records);
      [reflexivity | rewrite app_nil_r; reflexivity]. }
  destruct (classic_loop c (py_range 1 n') 0%float db (Table staging_schema [])
              (World (db_set db table_name (Some (Table staging_schema []))) fs
                     (iss ++ [drop_stmt; create_stmt])
                     (((con ++ warn) ++ init_console E w0)
                      ++ debug_line dbg MInsertClassic)
                     sd rng (S (ck + init_ticks w0)) true pw dbg)
              eq_refl eq_refl)
    as (rows & Hlen & Hall & Hloop).
  rewrite py_range_length in Hlen, Hloop. fold k in Hlen, Hloop.
  cbn [w_db w_fs w_issued w_console w_seed w_rng w_clock w_autocommit w_password
       w_debug] in Hloop.
  exists rows. split; [assumption|]. split; [assumption|].
  unfold classic_scenario.
  step_with ltac:(exact H0).
  step_with ltac:(apply init_table_spec). unfold after_init. flat.
  step_with ltac:(apply logger_debug_spec).
  step_with ltac:(reflexivity).
  step_with ltac:(exact Hloop).
  step_with ltac:(reflexivity).
  unfold secho, modify, debug_line, append_rows, q, warn.
  subst w0. world_eq_loop.
Qed.

End Scenarios.

(** ** Whole runs *)

Lemma filter_create_bulk (l : list (list (list pyval))) :
  filter is_create (map bulk_insert_stmt l) = [].
Proof. induction l; simpl; auto. Qed.

Lemma filter_create_classic (l : list (list pyval)) :
  filter is_create (map classic_insert_stmt l) = [].
Proof. induction l; simpl; auto. Qed.

Lemma filter_insert_bulk (l : list (list (list pyval))) :
  filter is_insert (map bulk_insert_stmt l) = map bulk_insert_stmt l.
Proof. induction l; simpl; congruence. Qed.

Lemma filter_insert_classic (l : list (list pyval)) :
  filter is_insert (map classic_insert_stmt l) = map classic_insert_stmt l.
Proof. induction l; simpl; congruence. Qed.

Section Runs.

Variable E : environ.

Lemma connect_accepted (h : string) (p : Z) (n u : string) (w : world) :
  accepts E ->
  _connect_redshift E h p n u w
  = (Ok (Some Conn),
     World (w_db w) (w_fs w) (w_issued w)
           (w_console w ++ debug_line (w_debug w) (MConnectTo u h n))
           (w_seed w) (w_rng w) (w_clock w) (w_autocommit w) (password_after E w)
           (w_debug w)).
Proof.
  intros Hacc. unfold _connect_redshift.
  erewrite bind_ok; [|apply logger_debug_spec].
  unfold try_except, bind, resolve_password, psycopg2_connect, password_after.
  cbn [w_password]. destruct (truthy_opt (w_password w)); rewrite Hacc; reflexivity.
Qed.

Lemma connect_refused (e : exn) (h : string) (p : Z) (n u : string) (w : world) :
  refuses E e ->
  _connect_redshift E h p n u w
  = (Ok None,
     World (w_db w) (w_fs w) (w_issued w)
           (w_console w ++ debug_line (w_debug w) (MConnectTo u h n)
            ++ [Log ERROR (MUnableToConnect e)])
           (w_seed w) (w_rng w) (w_clock w) (w_autocommit w) (password_after E w)
           (w_debug w)).
Proof.
  intros Href. unfold _connect_redshift.
  erewrite bind_ok; [|apply logger_debug_spec].
  unfold try_except, bind, resolve_password, psycopg2_connect, password_after,
    logger_error, modify, ret, debug_line.
  cbn [w_password].
  destruct (truthy_opt (w_password w)); rewrite Href; destruct w; world_eq.
Qed.

Lemma insert_accepted (o : options) :
  accepts E ->
  insert E o initial_world = run_scenarios E (Some Conn) o (started E o []).
Proof.
  intros Hacc. unfold insert.
  erewrite bind_ok; [|reflexivity].
  erewrite bind_ok; [|apply connect_accepted; assumption].
  erewrite bind_ok; [|reflexivity].
  unfold started. rewrite app_nil_r. reflexivity.
Qed.

Lemma insert_refused (o : options) (e : exn) :
  refuses E e ->
  insert E o initial_world
  = run_scenarios E None o (started E o [Log ERROR (MUnableToConnect e)]).
Proof.
  intros Href. unfold insert.
  erewrite bind_ok; [|reflexivity].
  erewrite bind_ok; [|apply connect_refused; eassumption].
  erewrite bind_ok; [|reflexivity].
  reflexivity.
Qed.

End Runs.

(** ** What a scenario leaves behind *)

Lemma truthy_opt_some (o : option string) :
  truthy_opt o = true -> exists s, o = Some s /\ s <> "".
Proof.
  destruct o as [s|]; [|discriminate]. simpl. intros H. exists s. split; [reflexivity|].
  intros ->. discriminate.
Qed.

Lemma bind_ret_tt (m : M unit) (w : world) : bind m (fun _ => ret tt) w = m w.
Proof. unfold bind, ret. destruct (m w) as [[[]| |] w']; reflexivity. Qed.

Section Effects.

Variable E : environ.

Lemma bulk_effect (c : connection) (n : Z) (w : world) :
  1 <= n ->
  exists rows w',
    bulk_scenario E (Some c) n w = (Ok tt, w')
    /\ w_issued w'
       = w_issued w ++ [drop_stmt; create_stmt]
         ++ map bulk_insert_stmt (chunks max_nbr_of_tuples rows)
    /\ List.length rows = Z.to_nat n
    /\ exists before wall sql, w_console w' = before ++ [Secho (NBulk n wall sql) Bold].
Proof.
  intros Hn. destruct (bulk_scenario_spec E c n w Hn) as (rows & Hlen & _ & Hrun).
  exists rows. eexists. split; [exact Hrun|]. split; [reflexivity|].
  split; [assumption|].
  cbn [w_console]. eexists. eexists. eexists.
  rewrite !app_assoc. reflexivity.
Qed.

Lemma copy_effect (c : connection) (role path : option string) (n : Z) (w : world) :
  truthy_opt role && truthy_opt path = true ->
  exists file w',
    copy_scenario E (Some c) role path n w = (Ok tt, w')
    /\ w_issued w' = w_issued w ++ [drop_stmt; create_stmt; copy_stmt file (opt_str role)].
Proof.
  intros H. apply andb_prop in H. destruct H as [Hr Hp].
  destruct (truthy_opt_some role Hr) as (r & -> & Hr').
  destruct (truthy_opt_some path Hp) as (p & -> & Hp').
  destruct (copy_scenario_spec E c r p n w Hr' Hp') as (rows & _ & _ & Hrun).
  eexists. eexists. split; [exact Hrun|]. reflexivity.
Qed.

Lemma copy_refused (conn : option connection) (role path : option string) (n : Z)
      (w : world) :
  truthy_opt role && truthy_opt path = false ->
  copy_scenario E conn role path n w
  = (Exit 1, emit (Secho NCopyParamsRequired BgRed) w).
Proof. intros H. unfold copy_scenario. rewrite H. reflexivity. Qed.

Lemma classic_effect (c : connection) (n : Z) (w : world) :
  exists rows w',
    classic_scenario E (Some c) n w = (Ok tt, w')
    /\ w_issued w' = w_issued w ++ [drop_stmt; create_stmt] ++ map classic_insert_stmt rows
    /\ List.length rows = Z.to_nat ((if n >? max_records then max_records else n) - 1).
Proof.
  destruct (classic_scenario_spec E c n w) as (rows & Hlen & _ & Hrun).
  exists rows. eexists. split; [exact Hrun|]. split; [reflexivity|assumption].
Qed.

(** Without a connection every scenario stops at its first use of the
    handle, before any statement reaches a cursor. *)
Lemma bulk_dead (n : Z) (w : world) :
  exists w',
    bulk_scenario E None n w = (Raise dead_handle, w') /\ w_issued w' = w_issued w.
Proof.
  unfold bulk_scenario. erewrite bind_raise; [|apply init_table_dead].
  eexists. split; reflexivity.
Qed.

Lemma copy_dead (role path : option string) (n : Z) (w : world) :
  truthy_opt role && truthy_opt path = true ->
  exists w',
    copy_scenario E None role path n w = (Raise dead_handle, w')
    /\ w_issued w' = w_issued w.
Proof.
  intros H. unfold copy_scenario. rewrite H. cbn [negb].
  erewrite bind_raise; [|apply init_table_dead].
  eexists. split; reflexivity.
Qed.

Lemma classic_dead (n : Z) (w : world) :
  exists w',
    classic_scenario E None n w = (Raise dead_handle, w')
    /\ w_issued w' = w_issued w.
Proof.
  unfold classic_scenario.
  destruct (n >? max_records).
  - erewrite bind_ok; [|reflexivity].
    erewrite bind_raise; [|apply init_table_dead]. eexists. split; reflexivity.
  - erewrite bind_ok; [|reflexivity].
    erewrite bind_raise; [|apply init_table_dead]. eexists. split; reflexivity.
Qed.

(** The three scenarios in a row, as the selector [all] runs them. *)
Lemma run_all_effect (c : connection) (o : options) (w : world) :
  scenario o = SAll ->
  1 <= nbr_of_records o ->
  copy_params_given o = true ->
  exists rows_b file rows_k w',
    run_scenarios E (Some c) o w = (Ok tt, w')
    /\ w_issued w'
       = w_issued w
         ++ ([drop_stmt; create_stmt]
             ++ map bulk_insert_stmt (chunks max_nbr_of_tuples rows_b))
         ++ [drop_stmt; create_stmt; copy_stmt file (opt_str (copy_iam_role o))]
         ++ ([drop_stmt; create_stmt] ++ map classic_insert_stmt rows_k).
Proof.
  intros Hs Hn Hp. unfold run_scenarios. rewrite Hs. cbn [scenario_in existsb orb].
  destruct (bulk_effect c (nbr_of_records o) w Hn) as (rows_b & wb & Hb & Hib & _).
  destruct (copy_effect c (copy_iam_role o) (copy_s3_path o) (nbr_of_records o) wb Hp)
    as (file & wc & Hc & Hic).
  destruct (classic_effect c (nbr_of_records o) wc) as (rows_k & wk & Hk & Hik & _).
  exists rows_b, file, rows_k, wk.
  erewrite bind_ok; [|exact Hb]. erewrite bind_ok; [|exact Hc].
  split; [exact Hk|].
  rewrite Hik, Hic, Hib. rewrite <- !app_assoc. reflexivity.
Qed.

(** A run that reaches its end creates the table once per selected scenario. *)
Lemma run_creates (c : connection) (o : options) (w : world) :
  completes o = true ->
  exists w',
    run_scenarios E (Some c) o w = (Ok tt, w')
    /\ count_creates (w_issued w')
       = (count_creates (w_issued w) + List.length (selected (scenario o)))%nat.
Proof.
  unfold completes, copy_selected, count_creates. intros H.
  destruct (scenario o) eqn:Hs; cbn [scenario_in existsb orb negb andb] in H.
  - apply andb_prop in H. destruct H as [Hn Hp]. apply Z.leb_le in Hn.
    destruct (run_all_effect c o w Hs Hn Hp) as (rb & file & rk & w' & Hrun & Hi).
    exists w'. split; [exact Hrun|].
    rewrite Hi, !filter_app, filter_create_bulk, filter_create_classic, !length_app.
    simpl. lia.
  - destruct (classic_effect c (nbr_of_records o) w) as (rk & w' & Hk & Hi & _).
    exists w'. unfold run_scenarios. rewrite Hs. cbn [scenario_in existsb orb].
    erewrite bind_ok; [|reflexivity]. erewrite bind_ok; [|reflexivity].
    split; [exact Hk|].
    rewrite Hi, !filter_app, filter_create_classic, !length_app. simpl. lia.
  - rewrite andb_true_r in H. apply Z.leb_le in H.
    destruct (bulk_effect c (nbr_of_records o) w H) as (rb & w' & Hb & Hi & _).
    exists w'. unfold run_scenarios. rewrite Hs. cbn [scenario_in existsb orb].
    erewrite bind_ok; [|exact Hb].
    split; [reflexivity|].
    rewrite Hi, !filter_app, filter_create_bulk, !length_app. simpl. lia.
  - destruct (copy_effect c (copy_iam_role o) (copy_s3_path o) (nbr_of_records o) w H)
      as (file & w' & Hc & Hi).
    exists w'. unfold run_scenarios. rewrite Hs. cbn [scenario_in existsb orb].
    erewrite bind_ok; [|reflexivity]. erewrite bind_ok; [|exact Hc].
    split; [reflexivity|].
    rewrite Hi, !filter_app, !length_app. simpl. lia.
Qed.

(** Under [all] without the copy parameters: the bulk scenario completes,
    then the check exits. *)
Lemma run_all_exit (c : connection) (o : options) (w : world) :
  scenario o = SAll ->
  1 <= nbr_of_records o ->
  copy_params_given o = false ->
  exists rows_b wb,
    run_scenarios E (Some c) o w
    = (Exit 1, emit (Secho NCopyParamsRequired BgRed) wb)
    /\ w_issued wb
       = w_issued w ++ [drop_stmt; create_stmt]
         ++ map bulk_insert_stmt (chunks max_nbr_of_tuples rows_b)
    /\ List.length rows_b = Z.to_nat (nbr_of_records o)
    /\ exists before wall sql,
         w_console wb = before ++ [Secho (NBulk (nbr_of_records o) wall sql) Bold].
Proof.
  intros Hs Hn Hp. unfold run_scenarios. rewrite Hs. cbn [scenario_in existsb orb].
  destruct (bulk_effect c (nbr_of_records o) w Hn) as (rows_b & wb & Hb & Hib & Hlen & Hcon).
  exists rows_b, wb.
  erewrite bind_ok; [|exact Hb].
  erewrite bind_exit; [|apply copy_refused; exact Hp].
  repeat split; assumption.
Qed.

(** [_connect_redshift] returns normally whatever the server answers. *)
Lemma connect_any (h : string) (p : Z) (n u : string) (w : world) :
  exists conn extra,
    _connect_redshift E h p n u w
    = (Ok conn,
       World (w_db w) (w_fs w) (w_issued w)
             (w_console w ++ debug_line (w_debug w) (MConnectTo u h n) ++ extra)
             (w_seed w) (w_rng w) (w_clock w) (w_autocommit w) (password_after E w)
             (w_debug w)).
Proof.
  unfold _connect_redshift.
  erewrite bind_ok; [|apply logger_debug_spec].
  unfold try_except, bind, resolve_password, psycopg2_connect, password_after,
    logger_error, modify, ret, debug_line.
  cbn [w_password].
  destruct (truthy_opt (w_password w));
    match goal with |- context [env_connect E ?ci] => destruct (env_connect E ci) as [e|] end.
  all: try (exists None, [Log ERROR (MUnableToConnect e)]; destruct w; world_eq).
  all: exists (Some Conn), []; destruct w; rewrite app_nil_r; world_eq.
Qed.

(** [insert] reaches the scenarios whatever the connection attempt gave. *)
Lemma insert_started (o : options) :
  exists conn extra,
    insert E o initial_world = run_scenarios E conn o (started E o extra).
Proof.
  destruct (connect_any (db_host o) (db_port o) (db_name o) (db_user o)
                        (with_debug (debug o) initial_world))
    as (conn & extra & Hc).
  exists conn, extra. unfold insert.
  erewrite bind_ok; [|reflexivity].
  erewrite bind_ok; [|exact Hc].
  erewrite bind_ok; [|reflexivity].
  reflexivity.
Qed.

End Effects.

(** * The specification's claims *)

(** ** C1, C2: the classic scenario *)

(** C1 (as the code behaves).  For a requested count [n] between 1 and 100 the
    classic scenario completes, but its loop runs over [range(1, n)]: it issues
    [n - 1] parameterized INSERT statements and the staging table ends with
    [n - 1] rows, one fewer than requested. *)
Theorem classic_issues_one_insert_less (E : environ) (c : connection) (n : Z) (w : world) :
  1 <= n <= 100 ->
  exists rows,
    fst (classic_scenario E (Some c) n w) = Ok tt
    /\ w_issued (snd (classic_scenario E (Some c) n w))
       = w_issued w ++ [drop_stmt; create_stmt] ++ map classic_insert_stmt rows
    /\ db_get (w_db (snd (classic_scenario E (Some c) n w))) table_name
       = Some (Table staging_schema rows)
    /\ Z.of_nat (List.length rows) = n - 1.
Proof.
  intros Hn.
  destruct (classic_scenario_spec E c n w) as (rows & Hlen & _ & Hrun).
  assert (Hle : (n >? max_records) = false) by (unfold max_records; lia).
  rewrite Hle in Hrun, Hlen.
  exists rows. rewrite Hrun. cbn [fst snd w_issued w_db].
  rewrite db_get_set. repeat split; try reflexivity. lia.
Qed.

Lemma classic_issues_one_insert_less_witness :
  exists rows,
    fst (classic_scenario sample_env (Some Conn) 5 initial_world) = Ok tt
    /\ w_issued (snd (classic_scenario sample_env (Some Conn) 5 initial_world))
       = w_issued initial_world ++ [drop_stmt; create_stmt] ++ map classic_insert_stmt rows
    /\ db_get (w_db (snd (classic_scenario sample_env (Some Conn) 5 initial_world)))
              table_name
       = Some (Table staging_schema rows)
    /\ Z.of_nat (List.length rows) = 5 - 1.
Proof.
  apply (classic_issues_one_insert_less sample_env Conn 5 initial_world). lia.
Defined.

(** C2 (as the code behaves).  For a requested count above 100 the classic
    scenario prints the clamp warning and reports 100 records, but the same
    loop bound leaves 99 INSERT statements and 99 rows. *)
Theorem classic_clamp_inserts_99 (E : environ) (c : connection) (n : Z) (w : world) :
  100 < n ->
  exists rows wall sql,
    fst (classic_scenario E (Some c) n w) = Ok tt
    /\ In (Secho (NClassicMax 100) BgRed)
          (w_console (snd (classic_scenario E (Some c) n w)))
    /\ In (Secho (NClassic 100 wall sql) Bold)
          (w_console (snd (classic_scenario E (Some c) n w)))
    /\ w_issued (snd (classic_scenario E (Some c) n w))
       = w_issued w ++ [drop_stmt; create_stmt] ++ map classic_insert_stmt rows
    /\ db_get (w_db (snd (classic_scenario E (Some c) n w))) table_name
       = Some (Table staging_schema rows)
    /\ List.length rows = 99%nat.
Proof.
  intros Hn.
  destruct (classic_scenario_spec E c n w) as (rows & Hlen & _ & Hrun).
  assert (Hgt : (n >? max_records) = true) by (unfold max_records; lia).
  rewrite Hgt in Hrun, Hlen.
  exists rows. eexists. eexists. rewrite Hrun. cbn [fst snd w_issued w_db w_console].
  rewrite db_get_set. split; [reflexivity|]. split; [|split; [|repeat split]].
  - apply in_or_app. right. left. reflexivity.
  - apply in_or_app. right. apply in_or_app. right. apply in_or_app. right.
    apply in_or_app. right. left. reflexivity.
  - exact Hlen.
Qed.

Lemma classic_clamp_inserts_99_witness :
  exists rows wall sql,
    fst (classic_scenario sample_env (Some Conn) 101 initial_world) = Ok tt
    /\ In (Secho (NClassicMax 100) BgRed)
          (w_console (snd (classic_scenario sample_env (Some Conn) 101 initial_world)))
    /\ In (Secho (NClassic 100 wall sql) Bold)
          (w_console (snd (classic_scenario sample_env (Some Conn) 101 initial_world)))
    /\ w_issued (snd (classic_scenario sample_env (Some Conn) 101 initial_world))
       = w_issued initial_world ++ [drop_stmt; create_stmt] ++ map classic_insert_stmt rows
    /\ db_get (w_db (snd (classic_scenario sample_env (Some Conn) 101 initial_world)))
              table_name
       = Some (Table staging_schema rows)
    /\ List.length rows = 99%nat.
Proof.
  apply (classic_clamp_inserts_99 sample_env Conn 101 initial_world). lia.
Defined.

(** ** C3: the bulk scenario *)

(** For one record or more the bulk scenario issues [ceil(n / 50000)] INSERT
    statements, each with between 1 and 50,000 inlined tuples, and the staging
    table ends with [n] rows. *)
Lemma bulk_statement_count (E : environ) (c : connection) (n : Z) (w : world) :
  1 <= n ->
  exists rows,
    fst (bulk_scenario E (Some c) n w) = Ok tt
    /\ w_issued (snd (bulk_scenario E (Some c) n w))
       = w_issued w ++ [drop_stmt; create_stmt]
         ++ map bulk_insert_stmt (chunks max_nbr_of_tuples rows)
    /\ Z.of_nat (List.length (chunks max_nbr_of_tuples rows)) = (n + 49999) / 50000
    /\ Forall (fun ch => 1 <= Z.of_nat (List.length ch) <= 50000)
              (chunks max_nbr_of_tuples rows)
    /\ db_get (w_db (snd (bulk_scenario E (Some c) n w))) table_name
       = Some (Table staging_schema rows)
    /\ Z.of_nat (List.length rows) = n.
Proof.
  intros Hn.
  destruct (bulk_scenario_spec E c n w Hn) as (rows & Hlen & _ & Hrun).
  exists rows. rewrite Hrun. cbn [fst snd w_issued w_db].
  rewrite db_get_set.
  split; [reflexivity|]. split; [reflexivity|]. split; [|split; [|split]].
  - rewrite (chunks_length _ max_nbr_of_tuples max_nbr_of_tuples_pos), Hlen.
    rewrite Nat2Z.inj_div, Nat2Z.inj_add, Nat2Z.inj_sub by exact max_nbr_of_tuples_pos.
    rewrite max_nbr_of_tuples_value, Z2Nat.id by lia. reflexivity.
  - eapply Forall_impl;
      [|apply (chunks_bounds _ max_nbr_of_tuples max_nbr_of_tuples_pos)].
    intros ch Hch. cbv beta in Hch. rewrite <- max_nbr_of_tuples_value. lia.
  - reflexivity.
  - lia.
Qed.

(** C3 (as the code behaves at zero records).  The claim promises
    [ceil(0 / 50000) = 0] INSERT statements; the code finds the empty data
    tuple false, hands the bare INSERT prefix to the cursor as one statement
    with no tuple, and the server's rejection ends the run. *)
Theorem bulk_no_rows_sends_bare_insert (E : environ) (c : connection) (w : world) :
  fst (bulk_scenario E (Some c) 0 w)
  = Raise (ProgrammingError "syntax error at end of input")
  /\ w_issued (snd (bulk_scenario E (Some c) 0 w))
     = w_issued w ++ [drop_stmt; create_stmt; bulk_insert_stmt []]
  /\ List.length (filter is_insert
                    [drop_stmt; create_stmt; bulk_insert_stmt []]) = 1%nat
  /\ (0 + 49999) / 50000 = 0.
Proof.
  rewrite (bulk_scenario_no_rows E c 0 w) by lia.
  repeat split.
Qed.

(** ** C5: the row generator *)

(** C5 (counterexample).  [randint] includes its upper end: a row with integer
    field [10^9], small-integer field [10^3] and decimal field [2^-53]. *)
Lemma synthetic_row_reaches_upper_ends :
  exists s,
    fst (synthetic_fields extreme_env initial_world)
    = Ok [VInt (10 ^ 9); VInt (10 ^ 3); VFloat 1; VDatetime (inject_Z 0); VStr s]
    /\ ~ claimed_row
         [VInt (10 ^ 9); VInt (10 ^ 3); VFloat 1; VDatetime (inject_Z 0); VStr s]
    /\ ~ two_decimals 1.
Proof.
  eexists. split; [vm_compute; reflexivity|]. split.
  - intros (a & b & c & t & s & Heq & Ha & _). inversion Heq; subst. lia.
  - intros (k & Hk). lia.
Qed.

(** C5 (amended).  Every row the generator produces has its integer field in
    the closed range [0, 10^9], its small-integer field in [0, 10^3], its
    decimal field an unrounded [c / 2^53] with [0 <= c < 2^53], and its string
    field 100 lowercase letters; it costs 103 draws and one clock reading. *)
Theorem synthetic_row_fields (E : environ) (w : world) :
  exists a b c s,
    synthetic_fields E w
    = (Ok [VInt a; VInt b; VFloat c; VDatetime (env_clock E (w_clock w)); VStr s],
       advance 103 1 w)
    /\ 0 <= a <= 10 ^ 9
    /\ 0 <= b <= 10 ^ 3
    /\ (c < 2 ^ 53)%N
    /\ String.length s = 100%nat
    /\ Forall (fun ch => In ch ascii_lowercase) (list_ascii_of_string s).
Proof.
  destruct (synthetic_fields_spec E w)
    as (f & Hf & (a & b & c & t & s & -> & H) & Ht).
  cbn [nth] in Ht. injection Ht as ->.
  exists a, b, c, s. split; [exact Hf | exact H].
Qed.

(** ** C6: the file written by the copy scenario *)

(** C6.  With both copy parameters given and a record count [n >= 0], the copy
    scenario writes one file, separated by semicolons, whose first line names
    the five columns and whose remaining [n] lines are the generated rows:
    [n + 1] lines in all.  The COPY statement it then issues names that file,
    and the table ends with those rows. *)
Theorem copy_writes_header_and_rows (E : environ) (c : connection)
        (role path : option string) (n : Z) (w : world) :
  truthy_opt role = true ->
  truthy_opt path = true ->
  0 <= n ->
  exists file rows,
    fst (copy_scenario E (Some c) role path n w) = Ok tt
    /\ w_fs (snd (copy_scenario E (Some c) role path n w))
       = (file,
          Csv ";" ([VStr "my_integer"; VStr "my_smallint"; VStr "my_decimal";
                    VStr "my_timestamp"; VStr "my_varchar"] :: rows))
         :: w_fs w
    /\ Z.of_nat (List.length
                   ([VStr "my_integer"; VStr "my_smallint"; VStr "my_decimal";
                     VStr "my_timestamp"; VStr "my_varchar"] :: rows)) = n + 1
    /\ Forall generated_row rows
    /\ w_issued (snd (copy_scenario E (Some c) role path n w))
       = w_issued w ++ [drop_stmt; create_stmt; copy_stmt file (opt_str role)]
    /\ db_get (w_db (snd (copy_scenario E (Some c) role path n w))) table_name
       = Some (Table staging_schema rows).
Proof.
  intros Hr Hp Hn.
  destruct (truthy_opt_some role Hr) as (r & -> & Hr').
  destruct (truthy_opt_some path Hp) as (p & -> & Hp').
  destruct (copy_scenario_spec E c r p n w Hr' Hp') as (rows & Hlen & Hall & Hrun).
  eexists. exists rows. rewrite Hrun. cbn [fst snd w_fs w_issued w_db opt_str].
  rewrite db_get_set.
  split; [reflexivity|]. split; [reflexivity|]. split; [|repeat split; assumption].
  cbn [List.length]. lia.
Qed.

Lemma copy_writes_header_and_rows_witness :
  exists file rows,
    fst (copy_scenario sample_env (Some Conn) (Some "role") (Some "s3://bucket/") 2
                       initial_world) = Ok tt
    /\ w_fs (snd (copy_scenario sample_env (Some Conn) (Some "role")
                                (Some "s3://bucket/") 2 initial_world))
       = (file,
          Csv ";" ([VStr "my_integer"; VStr "my_smallint"; VStr "my_decimal";
                    VStr "my_timestamp"; VStr "my_varchar"] :: rows))
         :: w_fs initial_world
    /\ Z.of_nat (List.length
                   ([VStr "my_integer"; VStr "my_smallint"; VStr "my_decimal";
                     VStr "my_timestamp"; VStr "my_varchar"] :: rows)) = 2 + 1
    /\ Forall generated_row rows
    /\ w_issued (snd (copy_scenario sample_env (Some Conn) (Some "role")
                                    (Some "s3://bucket/") 2 initial_world))
       = w_issued initial_world
         ++ [drop_stmt; create_stmt; copy_stmt file (opt_str (Some "role"))]
    /\ db_get (w_db (snd (copy_scenario sample_env (Some Conn) (Some "role")
                                        (Some "s3://bucket/") 2 initial_world)))
              table_name
       = Some (Table staging_schema rows).
Proof.
  apply (copy_writes_header_and_rows sample_env Conn (Some "role") (Some "s3://bucket/")
                                     2 initial_world);
    [reflexivity | reflexivity | lia].
Defined.

(** ** C4: missing copy parameters *)

(** C4 (counterexample).  Under the default selector [all] the copy scenario is
    selected too; without the copy parameters the run does exit with status 1
    and the error line, but only after the bulk scenario has issued its drop,
    create and INSERT. *)
Lemma missing_params_under_all_after_bulk_sql :
  copy_selected (scenario (bare_options 3 SAll)) = true
  /\ copy_params_given (bare_options 3 SAll) = false
  /\ exit_status (fst (insert sample_env (bare_options 3 SAll) initial_world)) = 1
  /\ List.length (w_issued (snd (insert sample_env (bare_options 3 SAll) initial_world)))
     = 3%nat
  /\ ~ exits_before_any_sql sample_env (bare_options 3 SAll).
Proof.
  split; [reflexivity|]. split; [reflexivity|].
  split; [vm_compute; reflexivity|]. split; [vm_compute; reflexivity|].
  intros (_ & _ & H). vm_compute in H. discriminate H.
Qed.

(** C4 (amended).  When the scenario selector is [copy] and either copy
    parameter is missing or empty, the run ends by [sys.exit(1)] with the error
    line as its last output and without any statement handed to the cursor,
    whatever the connection attempt gave. *)
Theorem copy_alone_missing_params_exits_first (E : environ) (o : options) :
  scenario o = SCopy ->
  copy_params_given o = false ->
  fst (insert E o initial_world) = Exit 1
  /\ exits_before_any_sql E o
  /\ exists before,
       w_console (snd (insert E o initial_world))
       = before ++ [Secho NCopyParamsRequired BgRed].
Proof.
  intros Hs Hp.
  destruct (insert_started E o) as (conn & extra & Hrun).
  assert (H : insert E o initial_world
              = (Exit 1, emit (Secho NCopyParamsRequired BgRed) (started E o extra))).
  { rewrite Hrun. unfold run_scenarios. rewrite Hs. cbn [scenario_in existsb orb].
    erewrite bind_ok; [|reflexivity].
    erewrite bind_exit; [reflexivity|]. apply copy_refused. exact Hp. }
  unfold exits_before_any_sql. rewrite H. cbn [fst snd exit_status emit w_console w_issued started].
  split; [reflexivity|]. split; [split; [reflexivity|split; [|reflexivity]]|].
  - apply in_or_app. right. left. reflexivity.
  - eexists. reflexivity.
Qed.

Lemma copy_alone_missing_params_exits_first_witness :
  fst (insert sample_env (bare_options 3 SCopy) initial_world) = Exit 1
  /\ exits_before_any_sql sample_env (bare_options 3 SCopy)
  /\ exists before,
       w_console (snd (insert sample_env (bare_options 3 SCopy) initial_world))
       = before ++ [Secho NCopyParamsRequired BgRed].
Proof.
  apply (copy_alone_missing_params_exits_first sample_env (bare_options 3 SCopy));
    reflexivity.
Defined.

(** ** C7: table initialisation *)

(** C7.  Over a live connection [_init_table] always hands the cursor a DROP of
    the staging table and then a CREATE; when the table is absent the server
    rejects the DROP and the error is swallowed; either way it returns
    normally with the table present, empty, and carrying the identity column
    followed by the five typed columns.  In a run that reaches its end the
    table is created once per selected scenario. *)
Theorem init_table_once_per_scenario (E : environ) (c : connection) (w : world)
        (o : options) :
  accepts E ->
  completes o = true ->
  fst (_init_table E (Some c) w) = Ok tt
  /\ w_issued (snd (_init_table E (Some c) w)) = w_issued w ++ [drop_stmt; create_stmt]
  /\ (if table_present w
      then exists d, db_exec (w_fs w) drop_stmt (w_db w) = inr d
      else exists e, db_exec (w_fs w) drop_stmt (w_db w) = inl e)
  /\ db_get (w_db (snd (_init_table E (Some c) w))) table_name
     = Some (Table [ Column "id" (TBigintIdentity 0 1);
                     Column "my_integer" TInteger;
                     Column "my_smallint" TSmallint;
                     Column "my_decimal" (TDecimal 8 2);
                     Column "my_timestamp" TTimestamp;
                     Column "my_varchar" (TVarchar 100) ] [])
  /\ List.length (filter is_identity staging_schema) = 1%nat
  /\ map col_name (filter (fun col => negb (is_identity col)) staging_schema) = columns
  /\ fst (insert E o initial_world) = Ok tt
  /\ count_creates (w_issued (snd (insert E o initial_world)))
     = List.length (selected (scenario o)).
Proof.
  intros Hacc Hdone.
  rewrite init_table_spec. cbn [fst snd after_init w_issued w_db].
  rewrite db_get_set.
  split; [reflexivity|]. split; [reflexivity|]. split; [|split; [reflexivity|]].
  - unfold table_present, db_exec, drop_stmt. cbn [i_sql i_args].
    destruct (db_get (w_db w) table_name); eexists; reflexivity.
  - split; [reflexivity|]. split; [reflexivity|].
    rewrite (insert_accepted E o Hacc).
    destruct (run_creates E Conn o (started E o []) Hdone) as (w' & Hrun & Hcount).
    rewrite Hrun. cbn [fst snd]. split; [reflexivity|].
    rewrite Hcount. reflexivity.
Qed.

Lemma init_table_once_per_scenario_witness :
  fst (_init_table sample_env (Some Conn) initial_world) = Ok tt
  /\ w_issued (snd (_init_table sample_env (Some Conn) initial_world))
     = w_issued initial_world ++ [drop_stmt; create_stmt]
  /\ (if table_present initial_world
      then exists d, db_exec (w_fs initial_world) drop_stmt (w_db initial_world) = inr d
      else exists e, db_exec (w_fs initial_world) drop_stmt (w_db initial_world) = inl e)
  /\ db_get (w_db (snd (_init_table sample_env (Some Conn) initial_world))) table_name
     = Some (Table [ Column "id" (TBigintIdentity 0 1);
                     Column "my_integer" TInteger;
                     Column "my_smallint" TSmallint;
                     Column "my_decimal" (TDecimal 8 2);
                     Column "my_timestamp" TTimestamp;
                     Column "my_varchar" (TVarchar 100) ] [])
  /\ List.length (filter is_identity staging_schema) = 1%nat
  /\ map col_name (filter (fun col => negb (is_identity col)) staging_schema) = columns
  /\ fst (insert sample_env (sample_options 3 SAll) initial_world) = Ok tt
  /\ count_creates (w_issued (snd (insert sample_env (sample_options 3 SAll) initial_world)))
     = List.length (selected (scenario (sample_options 3 SAll))).
Proof.
  apply (init_table_once_per_scenario sample_env Conn initial_world (sample_options 3 SAll)).
  - intros ci. reflexivity.
  - reflexivity.
Defined.

(** ** C8: a failed connection *)

(** C8.  When the connection attempt raises, [_connect_redshift] logs the
    error and returns [None] instead of raising; [insert] goes on to the
    scenarios with that [None], so the run ends at the first use of the handle
    with the resulting [AttributeError] (or at the copy-parameter check, which
    comes before any use), no statement having reached a cursor. *)
Theorem connection_failure_returns_none_and_run_continues
        (E : environ) (e : exn) (o : options) (h : string) (p : Z) (n u : string)
        (w : world) :
  refuses E e ->
  fst (_connect_redshift E h p n u w) = Ok None
  /\ In (Log ERROR (MUnableToConnect e)) (w_console (snd (_connect_redshift E h p n u w)))
  /\ insert E o initial_world
     = run_scenarios E None o (started E o [Log ERROR (MUnableToConnect e)])
  /\ fst (insert E o initial_world)
     = (if stops_at_copy_check o then Exit 1 else Raise dead_handle)
  /\ w_issued (snd (insert E o initial_world)) = [].
Proof.
  intros Href.
  rewrite (connect_refused E e h p n u w Href). cbn [fst snd w_console].
  split; [reflexivity|]. split.
  { apply in_or_app. right. apply in_or_app. right. left. reflexivity. }
  rewrite (insert_refused E o e Href).
  split; [reflexivity|].
  set (w0 := started E o [Log ERROR (MUnableToConnect e)]).
  assert (Hw0 : w_issued w0 = []) by reflexivity.
  unfold run_scenarios, stops_at_copy_check.
  destruct (scenario o) eqn:Hs; cbn [scenario_in existsb orb].
  - destruct (bulk_dead E (nbr_of_records o) w0) as (w' & Hb & Hi).
    erewrite bind_raise; [|exact Hb]. cbn [fst snd]. split; congruence.
  - destruct (classic_dead E (nbr_of_records o) w0) as (w' & Hk & Hi).
    erewrite bind_ok; [|reflexivity]. erewrite bind_ok; [|reflexivity].
    rewrite Hk. cbn [fst snd]. split; congruence.
  - destruct (bulk_dead E (nbr_of_records o) w0) as (w' & Hb & Hi).
    erewrite bind_raise; [|exact Hb]. cbn [fst snd]. split; congruence.
  - erewrite bind_ok; [|reflexivity].
    unfold copy_params_given.
    destruct (truthy_opt (copy_iam_role o) && truthy_opt (copy_s3_path o)) eqn:Hp.
    + destruct (copy_dead E (copy_iam_role o) (copy_s3_path o) (nbr_of_records o) w0 Hp)
        as (w' & Hc & Hi).
      erewrite bind_raise; [|exact Hc]. cbn [fst snd negb]. split; congruence.
    + erewrite bind_exit; [|apply copy_refused; exact Hp].
      cbn [fst snd negb]. split; reflexivity.
Qed.

Lemma connection_failure_returns_none_and_run_continues_witness :
  fst (_connect_redshift unreachable_env "host" 5439 "db" "user" initial_world) = Ok None
  /\ In (Log ERROR (MUnableToConnect (OperationalError "could not connect to server")))
        (w_console (snd (_connect_redshift unreachable_env "host" 5439 "db" "user"
                                           initial_world)))
  /\ insert unreachable_env (sample_options 200 SClassic) initial_world
     = run_scenarios unreachable_env None (sample_options 200 SClassic)
         (started unreachable_env (sample_options 200 SClassic)
            [Log ERROR (MUnableToConnect (OperationalError "could not connect to server"))])
  /\ fst (insert unreachable_env (sample_options 200 SClassic) initial_world)
     = (if stops_at_copy_check (sample_options 200 SClassic)
        then Exit 1 else Raise dead_handle)
  /\ w_issued (snd (insert unreachable_env (sample_options 200 SClassic) initial_world))
     = [].
Proof.
  apply (connection_failure_returns_none_and_run_continues
           unreachable_env (OperationalError "could not connect to server")
           (sample_options 200 SClassic) "host" 5439 "db" "user" initial_world).
  intros ci. reflexivity.
Defined.

(** ** C10: the order under [all] *)

(** C10.  With the selector [all], an accepting server and at least one
    record: if both copy parameters are given, the statements issued are the
    bulk scenario's, then the copy scenario's, then the classic scenario's; if
    one is missing, the run exits with status 1 at the copy check, after the
    bulk scenario has issued its DROP, CREATE and INSERTs and printed its
    summary line. *)
Theorem all_runs_bulk_then_copy_then_classic (E : environ) (o : options) :
  accepts E ->
  scenario o = SAll ->
  1 <= nbr_of_records o ->
  if copy_params_given o
  then exists rows_b file rows_k,
         fst (insert E o initial_world) = Ok tt
         /\ w_issued (snd (insert E o initial_world))
            = ([drop_stmt; create_stmt]
               ++ map bulk_insert_stmt (chunks max_nbr_of_tuples rows_b))
              ++ [drop_stmt; create_stmt; copy_stmt file (opt_str (copy_iam_role o))]
              ++ ([drop_stmt; create_stmt] ++ map classic_insert_stmt rows_k)
  else exists rows_b before wall sql,
         fst (insert E o initial_world) = Exit 1
         /\ exit_status (fst (insert E o initial_world)) = 1
         /\ w_issued (snd (insert E o initial_world))
            = [drop_stmt; create_stmt]
              ++ map bulk_insert_stmt (chunks max_nbr_of_tuples rows_b)
         /\ Z.of_nat (List.length rows_b) = nbr_of_records o
         /\ chunks max_nbr_of_tuples rows_b <> []
         /\ w_console (snd (insert E o initial_world))
            = before ++ [Secho (NBulk (nbr_of_records o) wall sql) Bold;
                         Secho NCopyParamsRequired BgRed].
Proof.
  intros Hacc Hs Hn. rewrite (insert_accepted E o Hacc).
  destruct (copy_params_given o) eqn:Hp.
  - destruct (run_all_effect E Conn o (started E o []) Hs Hn Hp)
      as (rb & file & rk & w' & Hrun & Hi).
    exists rb, file, rk. rewrite Hrun. cbn [fst snd]. split; [reflexivity|].
    rewrite Hi. reflexivity.
  - destruct (run_all_exit E Conn o (started E o []) Hs Hn Hp)
      as (rb & wb & Hrun & Hi & Hlen & (before & wall & sql & Hcon)).
    exists rb, before, wall, sql. rewrite Hrun.
    cbn [fst snd exit_status emit w_issued w_console].
    split; [reflexivity|]. split; [reflexivity|]. split; [rewrite Hi; reflexivity|].
    split; [lia|]. split.
    + intros Hnil. apply (f_equal (@List.length _)) in Hnil.
      rewrite (chunks_length _ max_nbr_of_tuples max_nbr_of_tuples_pos) in Hnil.
      cbn [List.length] in Hnil.
      pose proof max_nbr_of_tuples_pos as Hpos.
      assert (Hge : (1 <= (List.length rb + (max_nbr_of_tuples - 1)) / max_nbr_of_tuples)%nat).
      { apply Nat.div_le_lower_bound; lia. }
      lia.
    + rewrite Hcon, <- app_assoc. reflexivity.
Qed.

Lemma all_runs_bulk_then_copy_then_classic_witness :
  if copy_params_given (bare_options 3 SAll)
  then exists rows_b file rows_k,
         fst (insert sample_env (bare_options 3 SAll) initial_world) = Ok tt
         /\ w_issued (snd (insert sample_env (bare_options 3 SAll) initial_world))
            = ([drop_stmt; create_stmt]
               ++ map bulk_insert_stmt (chunks max_nbr_of_tuples rows_b))
              ++ [drop_stmt; create_stmt;
                  copy_stmt file (opt_str (copy_iam_role (bare_options 3 SAll)))]
              ++ ([drop_stmt; create_stmt] ++ map classic_insert_stmt rows_k)
  else exists rows_b before wall sql,
         fst (insert sample_env (bare_options 3 SAll) initial_world) = Exit 1
         /\ exit_status (fst (insert sample_env (bare_options 3 SAll) initial_world)) = 1
         /\ w_issued (snd (insert sample_env (bare_options 3 SAll) initial_world))
            = [drop_stmt; create_stmt]
              ++ map bulk_insert_stmt (chunks max_nbr_of_tuples rows_b)
         /\ Z.of_nat (List.length rows_b) = nbr_of_records (bare_options 3 SAll)
         /\ chunks max_nbr_of_tuples rows_b <> []
         /\ w_console (snd (insert sample_env (bare_options 3 SAll) initial_world))
            = before ++ [Secho (NBulk (nbr_of_records (bare_options 3 SAll)) wall sql) Bold;
                         Secho NCopyParamsRequired BgRed].
Proof.
  apply (all_runs_bulk_then_copy_then_classic sample_env (bare_options 3 SAll)).
  - intros ci. reflexivity.
  - reflexivity.
  - simpl. lia.
Defined.

(** ** C9: reported timings *)

Lemma round_half_even_bounds (x : Q) :
  (inject_Z (round_half_even x) - (1 # 2) <= x
   /\ x <= inject_Z (round_half_even x) + (1 # 2))%Q.
Proof.
  unfold round_half_even.
  pose proof (Qfloor_le x) as Hlo. pose proof (Qlt_floor x) as Hhi.
  rewrite inject_Z_plus in Hhi. change (inject_Z 1) with 1%Q in Hhi.
  destruct (Qcompare (x - inject_Z (Qfloor x)) (1 # 2)) eqn:Hc.
  - apply Qeq_alt in Hc.
    destruct (Z.even (Qfloor x)); rewrite ?inject_Z_plus;
      change (inject_Z 1) with 1%Q; split; lra.
  - apply Qlt_alt in Hc. split; lra.
  - apply Qgt_alt in Hc. rewrite inject_Z_plus. change (inject_Z 1) with 1%Q.
    split; lra.
Qed.

Lemma round_half_even_tie (x : Q) :
  (x == inject_Z (round_half_even x) + (1 # 2))%Q
  \/ (x == inject_Z (round_half_even x) - (1 # 2))%Q ->
  Z.even (round_half_even x) = true.
Proof.
  unfold round_half_even.
  pose proof (Qfloor_le x) as Hlo. pose proof (Qlt_floor x) as Hhi.
  rewrite inject_Z_plus in Hhi. change (inject_Z 1) with 1%Q in Hhi.
  destruct (Qcompare (x - inject_Z (Qfloor x)) (1 # 2)) eqn:Hc.
  - destruct (Z.even (Qfloor x)) eqn:He; intros _; [exact He|].
    rewrite Z.even_add, He. reflexivity.
  - apply Qlt_alt in Hc. intros [H|H]; exfalso; lra.
  - apply Qgt_alt in Hc. rewrite inject_Z_plus. change (inject_Z 1) with 1%Q.
    intros [H|H]; exfalso; lra.
Qed.

(** [round_dec] meets the description of [round] for every float. *)
Lemma round_dec_rounds_to (x : float) (d : nat) :
  (d <= 323)%nat -> rounds_to x d (round_dec x d).
Proof.
  intros Hd. unfold rounds_to, round_dec.
  destruct (is_finite x); cbn [andb]; [|reflexivity].
  destruct (Nat.leb_spec d 323) as [_|Hgt]; [|lia].
  exists (round_half_even (F2Q x * inject_Z (10 ^ Z.of_nat d))).
  destruct (round_half_even_bounds (F2Q x * inject_Z (10 ^ Z.of_nat d))) as [Hlo Hhi].
  split; [exact Hlo|]. split; [exact Hhi|]. split; [|reflexivity].
  apply round_half_even_tie.
Qed.

(** C9.  The last line [_init_table] logs reports the summed statement time
    divided by 1000 and then rounded to four decimals; the summary line of
    each scenario reports two undivided float differences of clock readings
    in seconds, rounded to three decimals: the wall time from before row
    generation to after the last statement, and the statement time (for the
    classic scenario the float sum over its statements).  Rounding is
    Python's [round] on floats: the float nearest to the decimal nearest to
    the float's exact value, ties to even. *)
Theorem timing_lines (E : environ) (c : connection) (w : world) (n : Z)
        (role path : option string) :
  1 <= n ->
  truthy_opt role = true ->
  truthy_opt path = true ->
  let clk := reading E in
  let q := (w_clock w + init_ticks w)%nat in
  let k := Z.to_nat n in
  let n' := if n >? max_records then max_records else n in
  let k' := Z.to_nat (n' - 1) in
  (exists before,
     w_console (snd (_init_table E (Some c) w))
     = before
       ++ [Log INFO (MCreateTableExecuted
                       (round_dec (init_sql_time E w / 1000) 4))])
  /\ (exists before,
        w_console (snd (bulk_scenario E (Some c) n w))
        = before
          ++ [Secho (NBulk n (round_dec (clk (q + k + 3)%nat - clk q) 3)
                             (round_dec (clk (q + k + 2)%nat - clk (q + k + 1)%nat) 3))
                    Bold])
  /\ (exists before,
        w_console (snd (copy_scenario E (Some c) role path n w))
        = before
          ++ [Secho (NCopy n (round_dec (clk (q + k + 4)%nat - clk q) 3)
                             (round_dec (clk (q + k + 3)%nat - clk (q + k + 2)%nat) 3))
                    Bold])
  /\ (exists before,
        w_console (snd (classic_scenario E (Some c) n w))
        = before
          ++ [Secho (NClassic n' (round_dec (clk (q + 3 * k' + 1)%nat - clk q) 3)
                                (round_dec (classic_sql_time E k' (q + 1) 0) 3))
                    Bold])
  /\ (forall x, rounds_to x 4 (round_dec x 4))
  /\ (forall x, rounds_to x 3 (round_dec x 3))
  /\ round_dec (Q2F (1 # 4) / 1000) 4 = Q2F (3 # 10000)
  /\ round_dec (Q2F (1 # 4)) 3 = Q2F (1 # 4).
Proof.
  intros Hn Hr Hp clk q k n' k'.
  destruct (truthy_opt_some role Hr) as (r & -> & Hr').
  destruct (truthy_opt_some path Hp) as (p & -> & Hp').
  split; [|split; [|split; [|split; [|split; [|split; [|split]]]]]].
  - rewrite init_table_spec. cbn [snd after_init w_console]. unfold init_console.
    eexists. rewrite app_assoc. reflexivity.
  - destruct (bulk_scenario_spec E c n w Hn) as (rows & _ & _ & Hrun).
    rewrite Hrun. cbn [snd w_console]. eexists. rewrite !app_assoc. reflexivity.
  - destruct (copy_scenario_spec E c r p n w Hr' Hp') as (rows & _ & _ & Hrun).
    rewrite Hrun. cbn [snd w_console]. eexists. rewrite !app_assoc. reflexivity.
  - destruct (classic_scenario_spec E c n w) as (rows & _ & _ & Hrun).
    rewrite Hrun. cbn [snd w_console]. eexists. rewrite !app_assoc. reflexivity.
  - intros x. apply round_dec_rounds_to. lia.
  - intros x. apply round_dec_rounds_to. lia.
  - vm_compute. reflexivity.
  - vm_compute. reflexivity.
Qed.

Lemma timing_lines_witness :
  let E := sample_env in
  let w := initial_world in
  let n := 3 in
  let clk := reading E in
  let q := (w_clock w + init_ticks w)%nat in
  let k := Z.to_nat n in
  let n' := if n >? max_records then max_records else n in
  let k' := Z.to_nat (n' - 1) in
  (exists before,
     w_console (snd (_init_table E (Some Conn) w))
     = before
       ++ [Log INFO (MCreateTableExecuted
                       (round_dec (init_sql_time E w / 1000) 4))])
  /\ (exists before,
        w_console (snd (bulk_scenario E (Some Conn) n w))
        = before
          ++ [Secho (NBulk n (round_dec (clk (q + k + 3)%nat - clk q) 3)
                             (round_dec (clk (q + k + 2)%nat - clk (q + k + 1)%nat) 3))
                    Bold])
  /\ (exists before,
        w_console (snd (copy_scenario E (Some Conn) (Some "role") (Some "s3://bucket/") n w))
        = before
          ++ [Secho (NCopy n (round_dec (clk (q + k + 4)%nat - clk q) 3)
                             (round_dec (clk (q + k + 3)%nat - clk (q + k + 2)%nat) 3))
                    Bold])
  /\ (exists before,
        w_console (snd (classic_scenario E (Some Conn) n w))
        = before
          ++ [Secho (NClassic n' (round_dec (clk (q + 3 * k' + 1)%nat - clk q) 3)
                                (round_dec (classic_sql_time E k' (q + 1) 0) 3))
                    Bold])
  /\ (forall x, rounds_to x 4 (round_dec x 4))
  /\ (forall x, rounds_to x 3 (round_dec x 3))
  /\ round_dec (Q2F (1 # 4) / 1000) 4 = Q2F (3 # 10000)
  /\ round_dec (Q2F (1 # 4)) 3 = Q2F (1 # 4).
Proof.
  apply (timing_lines sample_env Conn initial_world 3 (Some "role") (Some "s3://bucket/"));
    [lia | reflexivity | reflexivity].
Defined.

(** The two conventions side by side, with a clock that advances an eighth of
    a second per reading.  Recreating a table that exists takes two
    statements, 0.25 s in all: the table-creation line shows 0.0003, since
    the float nearest to 0.25/1000 lies above 0.00025.  A bulk insert of three
    rows takes 0.75 s, 0.125 s of them in its statement, and shows both. *)
Example sample_bulk_console :
  w_console (snd (_init_table sample_env (Some Conn) staged_world))
  = w_console staged_world
    ++ [Log INFO (MCreateTableExecuted (Q2F (3 # 10000)))]
  /\ w_console (snd (bulk_scenario sample_env (Some Conn) 3 initial_world))
     = [Log INFO (MCreateTableExecuted (Q2F (1 # 10000)));
        Secho (NBulk 3 (Q2F (3 # 4)) (Q2F (1 # 8))) Bold].
Proof. split; vm_compute; reflexivity. Qed.

(** * Further properties of the code *)

(** ** [_get_random_string] *)

(** X1.  For any requested length, negative ones included, [_get_random_string]
    returns normally a string of [max(0, length)] lowercase letters, taking one
    draw per letter and touching nothing else. *)
Theorem random_string_any_length (E : environ) (len : Z) (w : world) :
  exists s,
    _get_random_string E len w = (Ok s, advance (Z.to_nat len) 0 w)
    /\ Z.of_nat (String.length s) = Z.max 0 len
    /\ is_lowercase s.
Proof.
  destruct (_get_random_string_spec E len w) as (s & Hrun & Hlen & Hlow).
  exists s. split; [exact Hrun|]. split; [lia | exact Hlow].
Qed.

(** ** [_connect_redshift] *)

(** X2.  [_connect_redshift] never raises and never exits: it asks for one
    connection, with [sslmode] "require" and the password it settled on, and
    returns the handle when the server accepts and [None], after one ERROR
    line, when the attempt raises.  No statement is issued and the password is
    kept for the rest of the process. *)
Theorem connect_returns_handle_iff_accepted (E : environ) (h : string) (p : Z)
        (n u : string) (w : world) :
  _connect_redshift E h p n u w
  = (Ok (match env_connect E (ConnInfo n h p u (opt_str (password_after E w)) "require")
         with
         | None => Some Conn
         | Some _ => None
         end),
     World (w_db w) (w_fs w) (w_issued w)
           (w_console w ++ debug_line (w_debug w) (MConnectTo u h n)
            ++ match env_connect E
                       (ConnInfo n h p u (opt_str (password_after E w)) "require")
               with
               | None => []
               | Some e => [Log ERROR (MUnableToConnect e)]
               end)
           (w_seed w) (w_rng w) (w_clock w) (w_autocommit w) (password_after E w)
           (w_debug w)).
Proof.
  unfold _connect_redshift.
  erewrite bind_ok; [|apply logger_debug_spec].
  unfold try_except, bind, resolve_password, psycopg2_connect, password_after,
    logger_error, modify, ret, debug_line.
  cbn [w_password].
  destruct (truthy_opt (w_password w));
    match goal with |- context [env_connect E ?ci] => destruct (env_connect E ci) as [e|] end;
    destruct w; cbn [app]; rewrite ?app_nil_r; world_eq.
Qed.

(** X3.  Once a non-empty password has been settled on, a later connection
    attempt reuses it, whatever the environment variable and the prompt would
    give by then. *)
Theorem password_resolved_once (E E' : environ) (h : string) (p : Z) (n u : string)
        (w : world) :
  truthy_opt (password_after E w) = true ->
  password_after E' (snd (_connect_redshift E h p n u w)) = password_after E w.
Proof.
  intros Ht. rewrite connect_returns_handle_iff_accepted. cbn [snd].
  unfold password_after at 1. cbn [w_password]. rewrite Ht. reflexivity.
Qed.

Lemma password_resolved_once_witness :
  password_after unreachable_env
    (snd (_connect_redshift sample_env "host" 5439 "db" "user" initial_world))
  = password_after sample_env initial_world.
Proof.
  apply (password_resolved_once sample_env unreachable_env "host" 5439 "db" "user"
                                initial_world).
  reflexivity.
Defined.

(** ** [_execute] *)

Lemma keeps_autocommit_bind {A B} (m : M A) (k : A -> M B) :
  keeps_autocommit m -> (forall a, keeps_autocommit (k a)) -> keeps_autocommit (bind m k).
Proof.
  intros Hm Hk w. unfold bind. specialize (Hm w).
  destruct (m w) as [[a|e|code] w']; cbn [snd] in *; [|assumption|assumption].
  rewrite Hk. assumption.
Qed.

Lemma keeps_autocommit_for_fold {I A} (l : list I) (body : I -> A -> M A) :
  (forall i a, keeps_autocommit (body i a)) ->
  forall acc, keeps_autocommit (for_fold l acc body).
Proof.
  intros Hb. induction l as [|i l IH]; intros acc; cbn [for_fold].
  - intros w. reflexivity.
  - apply keeps_autocommit_bind; [apply Hb | exact IH].
Qed.

Lemma keeps_autocommit_cur_execute (sql : sql_text) (args : option pyval) :
  keeps_autocommit (cur_execute sql args).
Proof.
  intros w. unfold cur_execute.
  destruct (db_exec (w_fs (issue (Issued sql args) w)) (Issued sql args)
                    (w_db (issue (Issued sql args) w))); reflexivity.
Qed.

(** X4.  Over a live connection [_execute] leaves the connection's autocommit
    flag equal to its [auto_commit] argument, whatever the statement, the
    data, and the outcome (normal return or error). *)
Theorem execute_sets_autocommit (E : environ) (c : connection) (sql : sql_text)
        (data : pyval) (ac : bool) (w : world) :
  w_autocommit (snd (_execute E (Some c) sql data ac w)) = ac.
Proof.
  unfold _execute.
  assert (Hrest : forall k : M float,
             keeps_autocommit k ->
             w_autocommit (snd (bind (modify (with_autocommit ac)) (fun _ => k) w)) = ac).
  { intros k Hk. unfold bind, modify. rewrite Hk. reflexivity. }
  apply Hrest.
  apply keeps_autocommit_bind; [intros w'; reflexivity|]. intros tic.
  apply keeps_autocommit_bind.
  - destruct (truthy data).
    + destruct data as [| | | | |items]; try (intros w'; reflexivity).
      * apply keeps_autocommit_cur_execute.
      * destruct items as [|[| | | | |first] rest];
          try apply keeps_autocommit_cur_execute.
        apply keeps_autocommit_for_fold. intros x a.
        destruct (mogrify_all 5 _); [intros w'; reflexivity|].
        apply keeps_autocommit_cur_execute.
    + apply keeps_autocommit_cur_execute.
  - intros _. apply keeps_autocommit_bind; intros; intros w'; reflexivity.
Qed.

Section BulkInsert.

Variable E : environ.

#[local] Opaque max_nbr_of_tuples.

(** One INSERT of inlined tuples into a table that is there. *)
Lemma cur_execute_insert (tb : table) (ch : list (list pyval)) (w : world) :
  ch <> [] ->
  five_fields ch ->
  db_get (w_db w) table_name = Some tb ->
  cur_execute (SqlInsertValues table_name columns ch) None w
  = (Ok tt,
     World (db_set (w_db w) table_name (Some (append_rows tb ch))) (w_fs w)
           (w_issued w ++ [bulk_insert_stmt ch]) (w_console w) (w_seed w) (w_rng w)
           (w_clock w) (w_autocommit w) (w_password w) (w_debug w)).
Proof.
  intros Hne Hall Hdb. destruct w. cbn [w_db] in Hdb.
  unfold cur_execute, db_exec. cbn [i_sql i_args issue w_db w_fs w_issued].
  rewrite Hdb. destruct ch as [|r0 ch0]; [congruence|].
  assert (Hfa : forallb (fun r => Nat.eqb (List.length r) (List.length columns))
                        (r0 :: ch0) = true).
  { apply forallb_forall. intros r Hr. unfold five_fields in Hall.
    rewrite Forall_forall in Hall. rewrite (Hall r Hr). reflexivity. }
  rewrite Hfa. reflexivity.
Qed.

(** X5.  Given a non-empty tuple of rows as the generator makes them and the
    staging table as [_init_table] declares it, [_execute] returns the float
    difference of its two clock readings, issues one INSERT per slice, and
    loses, repeats or reorders nothing: the tuples of the statements, joined
    in the order issued, are the data, and the table's rows are the old rows
    followed by the data. *)
Theorem execute_bulk_partitions_data (c : connection) (rows old : list (list pyval))
        (w : world) :
  rows <> [] ->
  Forall generated_row rows ->
  db_get (w_db w) table_name = Some (Table staging_schema old) ->
  fst (_execute E (Some c) (SqlInsertValues table_name columns [])
                (VTuple (map VTuple rows)) true w)
  = Ok (reading E (w_clock w + 1) - reading E (w_clock w))%float
  /\ w_issued (snd (_execute E (Some c) (SqlInsertValues table_name columns [])
                             (VTuple (map VTuple rows)) true w))
     = w_issued w ++ map bulk_insert_stmt (chunks max_nbr_of_tuples rows)
  /\ List.concat (chunks max_nbr_of_tuples rows) = rows
  /\ db_get (w_db (snd (_execute E (Some c) (SqlInsertValues table_name columns [])
                                 (VTuple (map VTuple rows)) true w))) table_name
     = Some (Table staging_schema (old ++ rows))
  /\ w_clock (snd (_execute E (Some c) (SqlInsertValues table_name columns [])
                            (VTuple (map VTuple rows)) true w))
     = (w_clock w + 2)%nat.
Proof.
  intros Hne Hgen Hdb.
  pose proof (generated_rows_length rows Hgen) as Hall.
  set (tb := Table staging_schema old) in Hdb.
  pose proof (chunks_concat _ max_nbr_of_tuples max_nbr_of_tuples_pos rows) as Hcat.
  destruct rows as [|r rs]; [congruence|].
  unfold _execute.
  erewrite bind_ok; [|reflexivity]. erewrite bind_ok; [|reflexivity].
  cbn [truthy map]. change (VTuple r :: map VTuple rs) with (map VTuple (r :: rs)).
  rewrite length_map.
  unfold chunks in Hcat |- *. unfold range_step in Hcat |- *.
  cbn [List.length range_step_aux] in Hcat |- *.
  change (0 <? S (List.length rs))%nat with true in Hcat |- *.
  cbn [map List.concat] in Hcat. cbn [for_fold].
  set (ch0 := slice (r :: rs) 0 (0 + max_nbr_of_tuples)) in *.
  set (xs := range_step_aux (List.length rs) (0 + max_nbr_of_tuples)
                            (S (List.length rs)) max_nbr_of_tuples) in *.
  assert (Hch0 : ch0 <> []).
  { apply slice_nonempty; [cbn [List.length]; lia | exact max_nbr_of_tuples_pos]. }
  assert (Hall0 : five_fields ch0) by (apply slice_Forall; exact Hall).
  erewrite bind_ok.
  2:{ erewrite bind_ok.
      2:{ rewrite slice_map. fold ch0. rewrite mogrify_all_tuples by exact Hall0.
          cbn [sql_append_tuples app].
          apply (cur_execute_insert tb ch0); [exact Hch0 | exact Hall0 | exact Hdb]. }
      apply (bulk_loop (r :: rs) xs (w_db w) (append_rows tb ch0));
        [exact Hall | apply range_step_aux_below | reflexivity]. }
  erewrite bind_ok; [|reflexivity].
  cbn [fst snd ret w_issued w_db w_clock tick with_autocommit map List.concat].
  rewrite db_get_set, append_rows_app, !Hcat.
  split; [destruct w; world_eq|]. split.
  { destruct w. cbn [w_issued]. rewrite <- app_assoc, map_map. reflexivity. }
  split; [exact Hcat|]. split; [reflexivity|].
  destruct w. cbn [w_clock]. lia.
Qed.

End BulkInsert.

Lemma execute_bulk_partitions_data_witness :
  fst (_execute sample_env (Some Conn) (SqlInsertValues table_name columns [])
                (VTuple (map VTuple sample_rows)) true staged_world)
  = Ok (reading sample_env (w_clock staged_world + 1)
        - reading sample_env (w_clock staged_world))%float
  /\ w_issued (snd (_execute sample_env (Some Conn)
                             (SqlInsertValues table_name columns [])
                             (VTuple (map VTuple sample_rows)) true staged_world))
     = w_issued staged_world ++ map bulk_insert_stmt (chunks max_nbr_of_tuples sample_rows)
  /\ List.concat (chunks max_nbr_of_tuples sample_rows) = sample_rows
  /\ db_get (w_db (snd (_execute sample_env (Some Conn)
                                 (SqlInsertValues table_name columns [])
                                 (VTuple (map VTuple sample_rows)) true staged_world)))
            table_name
     = Some (Table staging_schema ([] ++ sample_rows))
  /\ w_clock (snd (_execute sample_env (Some Conn)
                            (SqlInsertValues table_name columns [])
                            (VTuple (map VTuple sample_rows)) true staged_world))
     = (w_clock staged_world + 2)%nat.
Proof.
  apply (execute_bulk_partitions_data sample_env Conn sample_rows [] staged_world).
  - discriminate.
  - repeat constructor; do 5 eexists; (split; [reflexivity|]);
      repeat split; try lia; try reflexivity;
      unfold is_lowercase; repeat constructor.
  - reflexivity.
Defined.

(** ** The slices of a bulk insert *)

Lemma range_step_aux_nth (step fuel x stop i y : nat) :
  nth_error (range_step_aux fuel x stop step) i = Some y -> y = (x + i * step)%nat.
Proof.
  revert x i. induction fuel as [|fuel IH]; intros x i H; cbn [range_step_aux] in H.
  - destruct i; discriminate.
  - destruct (x <? stop)%nat; [|destruct i; discriminate].
    destruct i as [|i]; cbn [nth_error] in H.
    + injection H as <-. lia.
    + apply IH in H. lia.
Qed.

(** Every slice but the last is full, for any positive step. *)
Lemma chunk_full {A} (step : nat) (l : list A) (i : nat) :
  (0 < step)%nat ->
  (S i < List.length (chunks step l))%nat ->
  List.length (nth i (chunks step l) []) = step.
Proof.
  intros Hpos Hi.
  unfold chunks in *. rewrite length_map in Hi.
  set (starts := range_step 0 (List.length l) step) in *.
  destruct (nth_error starts i) as [y|] eqn:Hy;
    [|apply nth_error_None in Hy; lia].
  destruct (nth_error starts (S i)) as [y'|] eqn:Hy';
    [|apply nth_error_None in Hy'; lia].
  pose proof (range_step_aux_nth step _ _ _ _ _ Hy) as ->.
  pose proof (range_step_aux_below step (List.length l) 0 (List.length l)) as Hbelow.
  rewrite Forall_forall in Hbelow.
  pose proof (Hbelow y' (nth_error_In _ _ Hy')) as Hlt.
  pose proof (range_step_aux_nth step _ _ _ _ _ Hy') as ->.
  rewrite (nth_error_nth _ _ _ (eq_trans (nth_error_map _ _ _) (f_equal _ Hy))).
  unfold slice. rewrite length_firstn, length_skipn. cbn [Nat.mul] in Hlt. lia.
Qed.

(** X6.  Every INSERT of a bulk insert but the last carries exactly 50,000
    tuples: whenever the chunk loop of [_execute] cuts more than [i + 1]
    slices out of the data, slice [i] has 50,000 elements. *)
Theorem all_but_last_insert_full {A} (l : list A) (i : nat) :
  (S i < List.length (chunks max_nbr_of_tuples l))%nat ->
  Z.of_nat (List.length (nth i (chunks max_nbr_of_tuples l) [])) = 50000.
Proof.
  intros Hi.
  rewrite (chunk_full max_nbr_of_tuples l i max_nbr_of_tuples_pos Hi).
  exact max_nbr_of_tuples_value.
Qed.

Lemma all_but_last_insert_full_witness :
  Z.of_nat (List.length
              (nth 0 (chunks max_nbr_of_tuples (repeat tt (Z.to_nat 50001))) []))
  = 50000.
Proof.
  apply (all_but_last_insert_full (repeat tt (Z.to_nat 50001)) 0).
  vm_compute. reflexivity.
Defined.

(** ** [_init_table] *)

Lemma db_get_remove_other (d : database) (n k : string) :
  String.eqb k n = false -> db_get (db_remove d n) k = db_get d k.
Proof.
  intros Hk. induction d as [|[key t] rest IH]; [reflexivity|].
  unfold db_remove, db_get. fold db_remove. fold db_get.
  destruct (String.eqb_spec key n) as [->|Hne].
  - rewrite IH. rewrite String.eqb_sym, Hk. reflexivity.
  - unfold db_get. fold db_get. rewrite IH. reflexivity.
Qed.

Lemma db_get_set_other (d : database) (n k : string) (o : option table) :
  String.eqb k n = false -> db_get (db_set d n o) k = db_get d k.
Proof.
  intros Hk. destruct o as [t|]; unfold db_set.
  - unfold db_get. fold db_get. rewrite String.eqb_sym, Hk.
    apply db_get_remove_other. exact Hk.
  - apply db_get_remove_other. exact Hk.
Qed.

(** X7.  Over a live connection [_init_table] resets the staging table and
    nothing else: every other relation of the session, the files written and
    the state of the random generator are as before.  Running it again leaves
    the warehouse exactly as the first run left it. *)
Theorem init_table_only_resets_staging_table (E : environ) (c : connection) (w : world)
        (name : string) :
  String.eqb name table_name = false ->
  db_get (w_db (snd (_init_table E (Some c) w))) name = db_get (w_db w) name
  /\ w_fs (snd (_init_table E (Some c) w)) = w_fs w
  /\ w_seed (snd (_init_table E (Some c) w)) = w_seed w
  /\ w_rng (snd (_init_table E (Some c) w)) = w_rng w
  /\ table_present (snd (_init_table E (Some c) w)) = true
  /\ w_db (snd (_init_table E (Some c) (snd (_init_table E (Some c) w))))
     = w_db (snd (_init_table E (Some c) w)).
Proof.
  intros Hname. rewrite !init_table_spec. cbn [snd after_init w_db w_fs w_seed w_rng].
  split; [apply db_get_set_other; exact Hname|].
  split; [reflexivity|]. split; [reflexivity|]. split; [reflexivity|].
  split.
  - unfold table_present. cbn [w_db after_init]. rewrite db_get_set. reflexivity.
  - apply db_set_set.
Qed.

Lemma init_table_only_resets_staging_table_witness :
  db_get (w_db (snd (_init_table sample_env (Some Conn) staged_world))) "orders"
  = db_get (w_db staged_world) "orders"
  /\ w_fs (snd (_init_table sample_env (Some Conn) staged_world)) = w_fs staged_world
  /\ w_seed (snd (_init_table sample_env (Some Conn) staged_world)) = w_seed staged_world
  /\ w_rng (snd (_init_table sample_env (Some Conn) staged_world)) = w_rng staged_world
  /\ table_present (snd (_init_table sample_env (Some Conn) staged_world)) = true
  /\ w_db (snd (_init_table sample_env (Some Conn)
                            (snd (_init_table sample_env (Some Conn) staged_world))))
     = w_db (snd (_init_table sample_env (Some Conn) staged_world)).
Proof.
  apply (init_table_only_resets_staging_table sample_env Conn staged_world "orders").
  reflexivity.
Defined.

(** ** What each scenario leaves in the table, the file store and the generator *)

Section Frames.

Variable E : environ.

Lemma bulk_frame (c : connection) (n : Z) (w : world) :
  1 <= n ->
  exists rows w',
    bulk_scenario E (Some c) n w = (Ok tt, w')
    /\ List.length rows = Z.to_nat n
    /\ Forall generated_row rows
    /\ db_get (w_db w') table_name = Some (Table staging_schema rows)
    /\ w_fs w' = w_fs w
    /\ w_seed w' = w_seed w
    /\ w_rng w' = (w_rng w + 103 * Z.to_nat n)%nat.
Proof.
  intros Hn. destruct (bulk_scenario_spec E c n w Hn) as (rows & Hlen & Hall & Hrun).
  exists rows. eexists. split; [exact Hrun|].
  cbn [w_db w_fs w_seed w_rng]. rewrite db_get_set. repeat split; assumption.
Qed.

Lemma copy_frame (c : connection) (role path : option string) (n : Z) (w : world) :
  truthy_opt role && truthy_opt path = true ->
  exists rows file w',
    copy_scenario E (Some c) role path n w = (Ok tt, w')
    /\ List.length rows = Z.to_nat n
    /\ Forall generated_row rows
    /\ db_get (w_db w') table_name = Some (Table staging_schema rows)
    /\ w_fs w' = (file, Csv ";" (map VStr columns :: rows)) :: w_fs w
    /\ w_seed w' = w_seed w
    /\ w_rng w' = (w_rng w + 103 * Z.to_nat n)%nat.
Proof.
  intros H. apply andb_prop in H. destruct H as [Hr Hp].
  destruct (truthy_opt_some role Hr) as (r & -> & Hr').
  destruct (truthy_opt_some path Hp) as (p & -> & Hp').
  destruct (copy_scenario_spec E c r p n w Hr' Hp') as (rows & Hlen & Hall & Hrun).
  exists rows. eexists. eexists. split; [exact Hrun|].
  cbn [w_db w_fs w_seed w_rng]. rewrite db_get_set. repeat split; assumption.
Qed.

Lemma classic_frame (c : connection) (n : Z) (w : world) :
  exists rows w',
    classic_scenario E (Some c) n w = (Ok tt, w')
    /\ List.length rows = Z.to_nat (clamped n - 1)
    /\ Forall generated_row rows
    /\ db_get (w_db w') table_name = Some (Table staging_schema rows)
    /\ w_fs w' = w_fs w
    /\ w_seed w' = w_seed w
    /\ w_rng w' = (w_rng w + 103 * Z.to_nat (clamped n - 1))%nat.
Proof.
  destruct (classic_scenario_spec E c n w) as (rows & Hlen & Hall & Hrun).
  exists rows. eexists. split; [exact Hrun|].
  cbn [w_db w_fs w_seed w_rng]. rewrite db_get_set. repeat split; assumption.
Qed.

(** The three scenarios in a row. *)
Lemma run_all_frame (c : connection) (o : options) (w : world) :
  scenario o = SAll ->
  1 <= nbr_of_records o ->
  copy_params_given o = true ->
  exists rows_c rows_k file w',
    run_scenarios E (Some c) o w = (Ok tt, w')
    /\ List.length rows_c = Z.to_nat (nbr_of_records o)
    /\ List.length rows_k = Z.to_nat (clamped (nbr_of_records o) - 1)
    /\ Forall generated_row rows_k
    /\ db_get (w_db w') table_name = Some (Table staging_schema rows_k)
    /\ w_fs w' = (file, Csv ";" (map VStr columns :: rows_c)) :: w_fs w
    /\ w_seed w' = w_seed w
    /\ w_rng w'
       = (w_rng w + 103 * (Z.to_nat (nbr_of_records o) + Z.to_nat (nbr_of_records o)
                           + Z.to_nat (clamped (nbr_of_records o) - 1)))%nat.
Proof.
  intros Hs Hn Hp. unfold run_scenarios. rewrite Hs. cbn [scenario_in existsb orb].
  destruct (bulk_frame c (nbr_of_records o) w Hn)
    as (rb & wb & Hb & _ & _ & _ & Hfb & Hsb & Hrb).
  destruct (copy_frame c (copy_iam_role o) (copy_s3_path o) (nbr_of_records o) wb Hp)
    as (rc & file & wc & Hc & Hlc & _ & _ & Hfc & Hsc & Hrc).
  destruct (classic_frame c (nbr_of_records o) wc)
    as (rk & wk & Hk & Hlk & Hallk & Hdk & Hfk & Hsk & Hrk).
  exists rc, rk, file, wk.
  erewrite bind_ok; [|exact Hb]. erewrite bind_ok; [|exact Hc].
  split; [exact Hk|]. split; [exact Hlc|]. split; [exact Hlk|]. split; [exact Hallk|].
  split; [exact Hdk|]. split; [congruence|]. split; [congruence|]. lia.
Qed.

End Frames.

(** ** The selector [all] from start to end *)

(** X8.  Each scenario starts from an emptied table, so after a complete run
    under [all] the staging table does not hold the rows of the bulk and copy
    scenarios any more: it holds the classic scenario's rows alone, one fewer
    than the clamped record count. *)
Theorem all_leaves_classic_rows_only (E : environ) (o : options) :
  accepts E ->
  scenario o = SAll ->
  1 <= nbr_of_records o ->
  copy_params_given o = true ->
  exists rows,
    fst (insert E o initial_world) = Ok tt
    /\ db_get (w_db (snd (insert E o initial_world))) table_name
       = Some (Table staging_schema rows)
    /\ Forall generated_row rows
    /\ Z.of_nat (List.length rows) = clamped (nbr_of_records o) - 1.
Proof.
  intros Hacc Hs Hn Hp. rewrite (insert_accepted E o Hacc).
  destruct (run_all_frame E Conn o (started E o []) Hs Hn Hp)
    as (rc & rk & file & w' & Hrun & _ & Hlk & Hallk & Hdk & _).
  exists rk. rewrite Hrun. cbn [fst snd].
  split; [reflexivity|]. split; [exact Hdk|]. split; [exact Hallk|].
  rewrite Hlk. unfold clamped, max_records in *.
  destruct (nbr_of_records o >? 100) eqn:Hgt; lia.
Qed.

Lemma all_leaves_classic_rows_only_witness :
  exists rows,
    fst (insert sample_env (sample_options 3 SAll) initial_world) = Ok tt
    /\ db_get (w_db (snd (insert sample_env (sample_options 3 SAll) initial_world)))
              table_name
       = Some (Table staging_schema rows)
    /\ Forall generated_row rows
    /\ Z.of_nat (List.length rows) = clamped (nbr_of_records (sample_options 3 SAll)) - 1.
Proof.
  apply (all_leaves_classic_rows_only sample_env (sample_options 3 SAll)).
  - intros ci. reflexivity.
  - reflexivity.
  - simpl. lia.
  - reflexivity.
Defined.

(** X9.  The generator is seeded once, with seed 1, before the first scenario
    and never again: a complete run under [all] ends with seed 1 and has
    consumed 103 draws per generated row, [N] rows for bulk, [N] for copy and
    one fewer than the clamped count for classic, whatever the clock and the
    server's timing were; it has written exactly one file, of [N + 1] lines. *)
Theorem all_consumes_draws_per_row (E : environ) (o : options) :
  accepts E ->
  scenario o = SAll ->
  1 <= nbr_of_records o ->
  copy_params_given o = true ->
  w_seed (snd (insert E o initial_world)) = 1
  /\ Z.of_nat (w_rng (snd (insert E o initial_world)))
     = 103 * (2 * nbr_of_records o + (clamped (nbr_of_records o) - 1))
  /\ exists file lines,
       w_fs (snd (insert E o initial_world)) = [(file, Csv ";" lines)]
       /\ Z.of_nat (List.length lines) = nbr_of_records o + 1.
Proof.
  intros Hacc Hs Hn Hp. rewrite (insert_accepted E o Hacc).
  destruct (run_all_frame E Conn o (started E o []) Hs Hn Hp)
    as (rc & rk & file & w' & Hrun & Hlc & _ & _ & _ & Hfs & Hseed & Hrng).
  rewrite Hrun. cbn [snd]. rewrite Hseed, Hrng, Hfs. cbn [started w_seed w_rng w_fs].
  split; [reflexivity|]. split.
  - unfold clamped, max_records. destruct (nbr_of_records o >? 100) eqn:Hgt; lia.
  - eexists. eexists. split; [reflexivity|]. cbn [List.length]. lia.
Qed.

Lemma all_consumes_draws_per_row_witness :
  w_seed (snd (insert sample_env (sample_options 3 SAll) initial_world)) = 1
  /\ Z.of_nat (w_rng (snd (insert sample_env (sample_options 3 SAll) initial_world)))
     = 103 * (2 * nbr_of_records (sample_options 3 SAll)
              + (clamped (nbr_of_records (sample_options 3 SAll)) - 1))
  /\ exists file lines,
       w_fs (snd (insert sample_env (sample_options 3 SAll) initial_world))
       = [(file, Csv ";" lines)]
       /\ Z.of_nat (List.length lines) = nbr_of_records (sample_options 3 SAll) + 1.
Proof.
  apply (all_consumes_draws_per_row sample_env (sample_options 3 SAll)).
  - intros ci. reflexivity.
  - reflexivity.
  - simpl. lia.
  - reflexivity.
Defined.

(** ** Record counts at and below the loops' bounds *)

(** X10.  With a record count of 1 or less (zero and negative counts
    included) the classic scenario still recreates the table and returns
    normally, but its loop body never runs: no INSERT is issued, the table
    stays empty, no draw is taken, and the summary line reports the requested
    count with a statement time of zero. *)
Theorem classic_at_most_one_record_inserts_nothing (E : environ) (c : connection)
        (n : Z) (w : world) :
  n <= 1 ->
  exists before wall,
    fst (classic_scenario E (Some c) n w) = Ok tt
    /\ w_issued (snd (classic_scenario E (Some c) n w))
       = w_issued w ++ [drop_stmt; create_stmt]
    /\ db_get (w_db (snd (classic_scenario E (Some c) n w))) table_name
       = Some (Table staging_schema [])
    /\ w_rng (snd (classic_scenario E (Some c) n w)) = w_rng w
    /\ w_console (snd (classic_scenario E (Some c) n w))
       = before ++ [Secho (NClassic n wall (round_dec 0 3)) Bold].
Proof.
  intros Hn.
  destruct (classic_scenario_spec E c n w) as (rows & Hlen & _ & Hrun).
  assert (Hle : (n >? max_records) = false) by (unfold max_records; lia).
  rewrite Hle in Hrun, Hlen.
  replace (Z.to_nat (n - 1)) with 0%nat in Hrun, Hlen by lia.
  destruct rows; [|discriminate Hlen].
  eexists. eexists. rewrite Hrun.
  cbn [fst snd w_issued w_db w_rng w_console map classic_sql_time].
  rewrite db_get_set, app_nil_r, !app_assoc.
  repeat split; try reflexivity. lia.
Qed.

Lemma classic_at_most_one_record_inserts_nothing_witness :
  exists before wall,
    fst (classic_scenario sample_env (Some Conn) 1 initial_world) = Ok tt
    /\ w_issued (snd (classic_scenario sample_env (Some Conn) 1 initial_world))
       = w_issued initial_world ++ [drop_stmt; create_stmt]
    /\ db_get (w_db (snd (classic_scenario sample_env (Some Conn) 1 initial_world)))
              table_name
       = Some (Table staging_schema [])
    /\ w_rng (snd (classic_scenario sample_env (Some Conn) 1 initial_world))
       = w_rng initial_world
    /\ w_console (snd (classic_scenario sample_env (Some Conn) 1 initial_world))
       = before ++ [Secho (NClassic 1 wall (round_dec 0 3)) Bold].
Proof.
  apply (classic_at_most_one_record_inserts_nothing sample_env Conn 1 initial_world).
  lia.
Defined.

(** X11.  With a record count of zero or less and the bulk scenario selected
    (alone or through [all]), a run over an accepting server ends in the
    server's syntax error on the bare INSERT prefix, with exit status 1: three
    statements were issued, no summary line was printed, no file was written,
    and under [all] neither the copy nor the classic scenario has started. *)
Theorem bulk_without_records_ends_run (E : environ) (o : options) :
  accepts E ->
  scenario_in (scenario o) [SBulk; SAll] = true ->
  nbr_of_records o <= 0 ->
  fst (insert E o initial_world)
  = Raise (ProgrammingError "syntax error at end of input")
  /\ exit_status (fst (insert E o initial_world)) = 1
  /\ w_issued (snd (insert E o initial_world))
     = [drop_stmt; create_stmt; bulk_insert_stmt []]
  /\ w_fs (snd (insert E o initial_world)) = []
  /\ w_console (snd (insert E o initial_world))
     = debug_line (debug o) (MConnectTo (db_user o) (db_host o) (db_name o))
       ++ init_console E (started E o [])
       ++ debug_line (debug o) (MInsertBulk (nbr_of_records o)).
Proof.
  intros Hacc Hs Hn. rewrite (insert_accepted E o Hacc).
  unfold run_scenarios. rewrite Hs.
  erewrite bind_raise; [|apply bulk_scenario_no_rows; exact Hn].
  cbn [fst snd exit_status w_issued w_fs w_console started app].
  rewrite app_nil_r. repeat split; reflexivity.
Qed.

Lemma bulk_without_records_ends_run_witness :
  fst (insert sample_env (sample_options (-2) SAll) initial_world)
  = Raise (ProgrammingError "syntax error at end of input")
  /\ exit_status (fst (insert sample_env (sample_options (-2) SAll) initial_world)) = 1
  /\ w_issued (snd (insert sample_env (sample_options (-2) SAll) initial_world))
     = [drop_stmt; create_stmt; bulk_insert_stmt []]
  /\ w_fs (snd (insert sample_env (sample_options (-2) SAll) initial_world)) = []
  /\ w_console (snd (insert sample_env (sample_options (-2) SAll) initial_world))
     = debug_line (debug (sample_options (-2) SAll))
         (MConnectTo (db_user (sample_options (-2) SAll))
                     (db_host (sample_options (-2) SAll))
                     (db_name (sample_options (-2) SAll)))
       ++ init_console sample_env (started sample_env (sample_options (-2) SAll) [])
       ++ debug_line (debug (sample_options (-2) SAll))
            (MInsertBulk (nbr_of_records (sample_options (-2) SAll))).
Proof.
  apply (bulk_without_records_ends_run sample_env (sample_options (-2) SAll)).
  - intros ci. reflexivity.
  - reflexivity.
  - simpl. lia.
Defined.

(** X12.  With a record count of zero or less the copy scenario writes a file
    that holds the header line alone, issues its COPY for that file, and
    returns normally with an empty table: a negative count gives one line,
    not [N + 1]. *)
Theorem copy_without_records_writes_header_only (E : environ) (c : connection)
        (role path : option string) (n : Z) (w : world) :
  truthy_opt role = true ->
  truthy_opt path = true ->
  n <= 0 ->
  exists file,
    fst (copy_scenario E (Some c) role path n w) = Ok tt
    /\ w_fs (snd (copy_scenario E (Some c) role path n w))
       = (file, Csv ";" [map VStr columns]) :: w_fs w
    /\ w_issued (snd (copy_scenario E (Some c) role path n w))
       = w_issued w ++ [drop_stmt; create_stmt; copy_stmt file (opt_str role)]
    /\ db_get (w_db (snd (copy_scenario E (Some c) role path n w))) table_name
       = Some (Table staging_schema []).
Proof.
  intros Hr Hp Hn.
  destruct (truthy_opt_some role Hr) as (r & -> & Hr').
  destruct (truthy_opt_some path Hp) as (p & -> & Hp').
  destruct (copy_scenario_spec E c r p n w Hr' Hp') as (rows & Hlen & _ & Hrun).
  replace (Z.to_nat n) with 0%nat in Hlen by lia.
  destruct rows; [|discriminate Hlen].
  eexists. rewrite Hrun. cbn [fst snd w_fs w_issued w_db opt_str].
  rewrite db_get_set. repeat split; reflexivity.
Qed.

Lemma copy_without_records_writes_header_only_witness :
  exists file,
    fst (copy_scenario sample_env (Some Conn) (Some "role") (Some "s3://bucket/") (-1)
                       initial_world) = Ok tt
    /\ w_fs (snd (copy_scenario sample_env (Some Conn) (Some "role")
                                (Some "s3://bucket/") (-1) initial_world))
       = (file, Csv ";" [map VStr columns]) :: w_fs initial_world
    /\ w_issued (snd (copy_scenario sample_env (Some Conn) (Some "role")
                                    (Some "s3://bucket/") (-1) initial_world))
       = w_issued initial_world
         ++ [drop_stmt; create_stmt; copy_stmt file (opt_str (Some "role"))]
    /\ db_get (w_db (snd (copy_scenario sample_env (Some Conn) (Some "role")
                                        (Some "s3://bucket/") (-1) initial_world)))
              table_name
       = Some (Table staging_schema []).
Proof.
  apply (copy_without_records_writes_header_only
           sample_env Conn (Some "role") (Some "s3://bucket/") (-1) initial_world);
    [reflexivity | reflexivity | lia].
Defined.

(** ** The path of the copy file *)

Lemma rstrip_slash_app_slash (s : string) :
  rstrip_slash (s ++ "/")%string = rstrip_slash s.
Proof.
  induction s as [|ch s IH]; [reflexivity|].
  cbn [String.append rstrip_slash]. rewrite IH. reflexivity.
Qed.

Lemma rstrip_slash_idempotent (s : string) :
  rstrip_slash (rstrip_slash s) = rstrip_slash s.
Proof.
  induction s as [|ch s IH]; [reflexivity|].
  cbn [rstrip_slash].
  destruct (Ascii.eqb ch "/" && String.eqb (rstrip_slash s) "")%bool eqn:H;
    [reflexivity|].
  cbn [rstrip_slash]. rewrite IH, H. reflexivity.
Qed.

(** What is stripped is slashes, and only from the end. *)
Lemma rstrip_slash_prefix (s : string) :
  exists k, s = (rstrip_slash s ++ string_of_list_ascii (repeat "/"%char k))%string.
Proof.
  induction s as [|ch s (k & IH)]; [exists 0%nat; reflexivity|].
  cbn [rstrip_slash].
  destruct (Ascii.eqb_spec ch "/") as [->|Hne]; cbn [andb].
  - destruct (String.eqb_spec (rstrip_slash s) "") as [He|Hne'].
    + exists (S k). rewrite He in IH. cbn [String.append] in IH |- *.
      cbn [repeat string_of_list_ascii]. rewrite <- IH. reflexivity.
    + exists k. cbn [String.append]. rewrite <- IH. reflexivity.
  - exists k. cbn [String.append]. rewrite <- IH. reflexivity.
Qed.

(** X13.  A trailing slash of the storage path does not matter to the copy
    scenario: run from the same world with [path] and with [path] followed
    by a slash, it ends with the same outcome in the same world, hence writes
    the same file and issues the same COPY; what it strips from the path is a
    run of slashes at its end, and a stripped path is not stripped further. *)
Theorem output_file_ignores_trailing_slashes (E : environ) (conn : option connection)
        (role : option string) (path : string) (n : Z) (w : world) :
  path <> "" ->
  copy_scenario E conn role (Some (path ++ "/")%string) n w
  = copy_scenario E conn role (Some path) n w
  /\ rstrip_slash (rstrip_slash path) = rstrip_slash path
  /\ exists k,
       path = (rstrip_slash path ++ string_of_list_ascii (repeat "/"%char k))%string.
Proof.
  intros Hne. split; [|split].
  - unfold copy_scenario.
    assert (Ht : truthy_opt (Some (path ++ "/")%string) = truthy_opt (Some path)).
    { destruct path as [|ch rest]; [congruence|]. reflexivity. }
    rewrite Ht. cbn [opt_str]. rewrite rstrip_slash_app_slash. reflexivity.
  - apply rstrip_slash_idempotent.
  - apply rstrip_slash_prefix.
Qed.

Lemma output_file_ignores_trailing_slashes_witness :
  copy_scenario sample_env (Some Conn) (Some "role") (Some ("s3://bucket" ++ "/")%string)
                3 initial_world
  = copy_scenario sample_env (Some Conn) (Some "role") (Some "s3://bucket") 3 initial_world
  /\ rstrip_slash (rstrip_slash "s3://bucket") = rstrip_slash "s3://bucket"
  /\ exists k,
       "s3://bucket"
       = (rstrip_slash "s3://bucket" ++ string_of_list_ascii (repeat "/"%char k))%string.
Proof.
  apply (output_file_ignores_trailing_slashes sample_env (Some Conn) (Some "role")
                                              "s3://bucket" 3 initial_world).
  discriminate.
Defined.

(** The slash is stripped before the file is named: with the path
    [s3://bucket/] the file written and the source of the COPY statement are
    under [s3://bucket/_rs_benchmark/].  The empty path is the one exception
    to the equality above: it ends the run with exit status 1, while the path
    [/] is accepted. *)
Example sample_copy_path :
  map fst (w_fs (snd (copy_scenario sample_env (Some Conn) (Some "role")
                                    (Some "s3://bucket/") 3 initial_world)))
  = ["s3://bucket/_rs_benchmark/20200101-00:00:00.csv"]
  /\ last (map i_sql (w_issued (snd (copy_scenario sample_env (Some Conn) (Some "role")
                                                   (Some "s3://bucket/") 3 initial_world))))
          SqlGarbled
     = SqlCopy table_name "s3://bucket/_rs_benchmark/20200101-00:00:00.csv" "role"
               "YYYY-MM-DD HH:MI:SS" ";" 1
  /\ fst (copy_scenario sample_env (Some Conn) (Some "role") (Some "") 3 initial_world)
     = Exit 1
  /\ fst (copy_scenario sample_env (Some Conn) (Some "role") (Some "/") 3 initial_world)
     = Ok tt.
Proof. repeat split; vm_compute; reflexivity. Qed.

(** ** Statement time against wall time *)


(** ** One scenario selected alone *)

(** X15.  A selector other than [all] runs its own scenario and no other: in
    a run that reaches its end over an accepting server, [bulk] issues DROP,
    CREATE and inlined INSERTs only, [classic] DROP, CREATE and parameterized
    INSERTs only, and neither writes a file; [copy] issues DROP, CREATE and
    one COPY, no INSERT at all, and writes the one file the COPY names. *)
Theorem single_selector_runs_one_scenario (E : environ) (o : options) :
  accepts E ->
  completes o = true ->
  scenario_in (scenario o) [SBulk; SClassic; SCopy] = true ->
  fst (insert E o initial_world) = Ok tt
  /\ match scenario o with
     | SBulk =>
         exists rows,
           w_issued (snd (insert E o initial_world))
           = [drop_stmt; create_stmt]
             ++ map bulk_insert_stmt (chunks max_nbr_of_tuples rows)
           /\ w_fs (snd (insert E o initial_world)) = []
     | SClassic =>
         exists rows,
           w_issued (snd (insert E o initial_world))
           = [drop_stmt; create_stmt] ++ map classic_insert_stmt rows
           /\ w_fs (snd (insert E o initial_world)) = []
     | _ =>
         exists file lines,
           w_issued (snd (insert E o initial_world))
           = [drop_stmt; create_stmt; copy_stmt file (opt_str (copy_iam_role o))]
           /\ filter is_insert (w_issued (snd (insert E o initial_world))) = []
           /\ w_fs (snd (insert E o initial_world)) = [(file, Csv ";" lines)]
     end.
Proof.
  intros Hacc Hdone Hsel. rewrite (insert_accepted E o Hacc).
  unfold completes, copy_selected, copy_params_given, run_scenarios in *.
  destruct (scenario o) eqn:Hs; cbn [scenario_in existsb orb negb andb] in *;
    [discriminate Hsel| | |].
  - destruct (classic_scenario_spec E Conn (nbr_of_records o) (started E o []))
      as (rows & _ & _ & Hrun).
    erewrite bind_ok; [|reflexivity]. erewrite bind_ok; [|reflexivity].
    rewrite Hrun. cbn [fst snd w_issued w_fs started app].
    split; [reflexivity|]. exists rows. split; reflexivity.
  - rewrite andb_true_r in Hdone. apply Z.leb_le in Hdone.
    destruct (bulk_scenario_spec E Conn (nbr_of_records o) (started E o []) Hdone)
      as (rows & _ & _ & Hrun).
    erewrite bind_ok; [|exact Hrun].
    cbn [fst snd bind ret w_issued w_fs started app].
    split; [reflexivity|]. exists rows. split; reflexivity.
  - apply andb_prop in Hdone. destruct Hdone as [Hr Hp].
    destruct (truthy_opt_some _ Hr) as (r & Hre & Hr').
    destruct (truthy_opt_some _ Hp) as (p & Hpe & Hp').
    rewrite Hre, Hpe.
    destruct (copy_scenario_spec E Conn r p (nbr_of_records o) (started E o []) Hr' Hp')
      as (rows & _ & _ & Hrun).
    erewrite bind_ok; [|reflexivity]. erewrite bind_ok; [|exact Hrun].
    cbn [fst snd bind ret w_issued w_fs started app opt_str].
    split; [reflexivity|]. eexists. eexists. repeat split; reflexivity.
Qed.

Lemma single_selector_runs_one_scenario_witness :
  fst (insert sample_env (sample_options 3 SCopy) initial_world) = Ok tt
  /\ match scenario (sample_options 3 SCopy) with
     | SBulk =>
         exists rows,
           w_issued (snd (insert sample_env (sample_options 3 SCopy) initial_world))
           = [drop_stmt; create_stmt]
             ++ map bulk_insert_stmt (chunks max_nbr_of_tuples rows)
           /\ w_fs (snd (insert sample_env (sample_options 3 SCopy) initial_world)) = []
     | SClassic =>
         exists rows,
           w_issued (snd (insert sample_env (sample_options 3 SCopy) initial_world))
           = [drop_stmt; create_stmt] ++ map classic_insert_stmt rows
           /\ w_fs (snd (insert sample_env (sample_options 3 SCopy) initial_world)) = []
     | _ =>
         exists file lines,
           w_issued (snd (insert sample_env (sample_options 3 SCopy) initial_world))
           = [drop_stmt; create_stmt;
              copy_stmt file (opt_str (copy_iam_role (sample_options 3 SCopy)))]
           /\ filter is_insert
                (w_issued (snd (insert sample_env (sample_options 3 SCopy) initial_world)))
              = []
           /\ w_fs (snd (insert sample_env (sample_options 3 SCopy) initial_world))
              = [(file, Csv ";" lines)]
     end.
Proof.
  apply (single_selector_runs_one_scenario sample_env (sample_options 3 SCopy)).
  - intros ci. reflexivity.
  - reflexivity.
  - reflexivity.
Defined.
